(** * Account REST service: a shallow embedding of [service/routes.py]

    The request handlers of the account service are embedded as functions in
    a small state-and-exception monad over the account table.  The handlers
    follow [service/routes.py] statement by statement.  The [Account] model
    ([service/models.py]), the status constants ([service/common/status.py])
    and the error handlers ([service/common/error_handlers.py]) are not part
    of the sources at hand; they are modelled from the specification, and
    each such definition says so. *)

From stdpp Require Import gmap strings list fin_maps pretty.
From Stdlib Require Import ZArith Ascii Lia.

Local Open Scope string_scope.
Local Open Scope Z_scope.

(** ** JSON values, as produced by [request.get_json()] and consumed by
    [jsonify].  A JSON object is a Python [dict]. *)

#[local] Unset Elimination Schemes.
Inductive json : Type :=
| JNull
| JBool (b : bool)
| JInt (z : Z)
| JStr (s : string)
| JArr (l : list json)
| JObj (m : gmap string json).
#[local] Set Elimination Schemes.

(** ** Calendar dates ([datetime.date]) *)

Module Date.

Definition is_leap (y : Z) : bool :=
  (y mod 4 =? 0) && (negb (y mod 100 =? 0) || (y mod 400 =? 0)).

Definition days_in_month (y m : Z) : Z :=
  if m =? 2 then (if is_leap y then 29 else 28)
  else if (m =? 4) || (m =? 6) || (m =? 9) || (m =? 11) then 30
  else 31.

(** The range checks of the [date] constructor: [MINYEAR = 1],
    [MAXYEAR = 9999]. *)
Definition valid (y m d : Z) : bool :=
  (1 <=? y) && (y <=? 9999) && (1 <=? m) && (m <=? 12)
  && (1 <=? d) && (d <=? days_in_month y m).

(** A [date] object cannot be built outside those ranges. *)
Record date : Type := mk {
  year : Z;
  month : Z;
  day : Z;
  date_ok : valid year month day = true
}.

Definition make (y m d : Z) : option date :=
  match Bool.bool_dec (valid y m d) true with
  | left H => Some (mk y m d H)
  | right _ => None
  end.

Definition digit (n : Z) : ascii := ascii_of_nat (48 + Z.to_nat (n mod 10)).

(** [zfill w n]: the last [w] decimal digits of [n], most significant
    first; this is ["%0wd" % n] whenever [0 <= n < 10^w]. *)
Fixpoint zfill (w : nat) (n : Z) : string :=
  match w with
  | O => EmptyString
  | S w' => zfill w' (n / 10) +:+ String (digit n) EmptyString
  end.

(** [date.isoformat()]: ["%04d-%02d-%02d" % (year, month, day)]. *)
Definition isoformat (d : date) : string :=
  zfill 4 (year d) +:+ "-" +:+ zfill 2 (month d) +:+ "-" +:+ zfill 2 (day d).

Definition is_digit (c : ascii) : bool :=
  let n := nat_of_ascii c in (48 <=? n)%nat && (n <=? 57)%nat.

Definition digit_val (c : ascii) : Z := Z.of_nat (nat_of_ascii c) - 48.

(** The shape [YYYY-MM-DD]: ten characters, digits except for a hyphen at
    offsets 4 and 7. *)
Definition is_iso_shape (s : string) : bool :=
  match s with
  | String y1 (String y2 (String y3 (String y4 (String h1
    (String m1 (String m2 (String h2
    (String d1 (String d2 EmptyString))))))))) =>
      is_digit y1 && is_digit y2 && is_digit y3 && is_digit y4
      && Ascii.eqb h1 "-" && is_digit m1 && is_digit m2
      && Ascii.eqb h2 "-" && is_digit d1 && is_digit d2
  | _ => false
  end.

(** [date.fromisoformat] on the [YYYY-MM-DD] form; [None] stands for
    [ValueError]. *)
Definition fromisoformat (s : string) : option date :=
  match s with
  | String y1 (String y2 (String y3 (String y4 (String h1
    (String m1 (String m2 (String h2
    (String d1 (String d2 EmptyString))))))))) =>
      if is_iso_shape s then
        make (1000 * digit_val y1 + 100 * digit_val y2
              + 10 * digit_val y3 + digit_val y4)
             (10 * digit_val m1 + digit_val m2)
             (10 * digit_val d1 + digit_val d2)
      else None
  | _ => None
  end.

End Date.

(** ** HTTP status codes *)

Module status.
(** Modelled from the spec: [service/common/status.py] is missing; the
    code of "200 OK". *)
Definition HTTP_200_OK : Z := 200.
(** Modelled from the spec: [service/common/status.py] is missing; the
    code of "201 Created". *)
Definition HTTP_201_CREATED : Z := 201.
(** Modelled from the spec: [service/common/status.py] is missing; the
    code of "204 No Content". *)
Definition HTTP_204_NO_CONTENT : Z := 204.
(** Modelled from the spec: [service/common/status.py] is missing; the
    code of "400 Bad Request". *)
Definition HTTP_400_BAD_REQUEST : Z := 400.
(** Modelled from the spec: [service/common/status.py] is missing; the
    code of "404 Not Found". *)
Definition HTTP_404_NOT_FOUND : Z := 404.
(** Modelled from the spec: [service/common/status.py] is missing; the
    code of "415 Unsupported Media Type". *)
Definition HTTP_415_UNSUPPORTED_MEDIA_TYPE : Z := 415.
(** Modelled from the spec: [service/common/status.py] is missing; the
    code of "500 Internal Server Error". *)
Definition HTTP_500_INTERNAL_SERVER_ERROR : Z := 500.
End status.

(** ** Requests and responses (the part of Flask the handlers use) *)

(** What a handler reads from the ambient [request]:
    [request.headers.get("Content-Type")] and the body as parsed by
    [request.get_json()] ([None]: the body is not valid JSON). *)
Record request : Type := {
  header_content_type : option string;
  json_body : option json
}.

Inductive body : Type :=
| BodyText (s : string)
| BodyJson (j : json).

Record response : Type := {
  status_code : Z;
  data : body;
  headers : gmap string string
}.

(** [jsonify(x)]: a JSON response with the default status. *)
Definition jsonify (j : json) : response :=
  {| status_code := 200; data := BodyJson j; headers := ∅ |}.

(** First argument of [make_response]: a string or a response object. *)
Inductive view_rv : Type :=
| Text (s : string)
| Resp (r : response).

(** [make_response(rv, status, headers)]; the given headers extend (and
    override) those of the response. *)
Definition make_response (rv : view_rv) (st : Z) (h : gmap string string)
  : response :=
  match rv with
  | Text s => {| status_code := st; data := BodyText s; headers := h |}
  | Resp r =>
      {| status_code := st; data := data r; headers := h ∪ headers r |}
  end.

(** ** Exceptions and the handler monad *)

(** Modelled from the spec: [service/models.py] and
    [service/common/error_handlers.py] are missing; the exceptions of the
    error taxonomy (section 7), next to the [HTTPException] that [abort]
    raises and the [AttributeError] of an attribute access on [None]. *)
Inductive exn : Type :=
| HTTPException (code : Z) (description : string)   (* raised by [abort] *)
| DataValidationError (msg : string)
| StorageError (msg : string)
| AttributeError (msg : string).

Inductive result (A : Type) : Type :=
| Ok (a : A)
| Raise (e : exn).
Arguments Ok {A} a.
Arguments Raise {A} e.

(** ** The account table *)

(** Modelled from the spec: [service/models.py] is missing; one row of the
    table (section 3), without its primary key: [name], [email] and
    [date_joined] are on every row, [address] and [phone_number] are
    optional. *)
Record row : Type := {
  row_name : string;
  row_email : string;
  row_address : option string;
  row_phone_number : option string;
  row_date_joined : Date.date
}.

(** Modelled from the spec: [service/models.py] is missing; the table maps
    the unique [id] to the row, and [last_id] is the last value the storage
    generated as an [id]. *)
Record store : Type := {
  rows : gmap Z row;
  last_id : Z
}.

(** A computation reads and writes the table and returns or raises. *)
Definition M (A : Type) : Type := store → result A * store.

#[export] Instance M_ret : MRet M := λ A (a : A) (s : store), (Ok a, s).

#[export] Instance M_bind : MBind M := λ A B (f : A → M B) (m : M A) (s : store),
  match m s with
  | (Ok a, s') => f a s'
  | (Raise e, s') => (Raise e, s')
  end.

Definition raise {A : Type} (e : exn) : M A := λ s, (Raise e, s).

Definition lift {A : Type} (r : result A) : M A := λ s, (r, s).

(** [abort(code, description)] *)
Definition abort {A : Type} (code : Z) (description : string) : M A :=
  raise (HTTPException code description).

(** [request.get_json()], called once the content type is known to be
    JSON: a body that does not parse is a 400. *)
Definition get_json (req : request) : M json :=
  match json_body req with
  | Some j => mret j
  | None => abort status.HTTP_400_BAD_REQUEST "Failed to decode JSON object"
  end.

(** ** The Account entity and its storage adapter *)

Module Account.

(** Modelled from the spec: [service/models.py] is missing; the attributes
    of the Account entity (section 3).  A Python attribute may hold
    [None], so every field is an option. *)
Record t : Type := mk {
  id : option Z;
  name : option string;
  email : option string;
  address : option string;
  phone_number : option string;
  date_joined : option Date.date
}.

(** Modelled from the spec: [service/models.py] is missing; [Account()],
    an entity with nothing populated yet. *)
Definition new : t := mk None None None None None None.

(** Modelled from the spec: [service/models.py] is missing; the
    assignment [account.id = i] on an entity. *)
Definition set_id (a : t) (i : Z) : t :=
  mk (Some i) (name a) (email a) (address a) (phone_number a)
     (date_joined a).

(** Modelled from the spec: [service/models.py] is missing; a required
    string field of the payload (section 4.1: missing, or of the wrong
    type, is a validation error). *)
Definition required_str (m : gmap string json) (k : string)
  : result string :=
  match m !! k with
  | None => Raise (DataValidationError ("Invalid Account: missing " +:+ k))
  | Some (JStr v) => Ok v
  | Some _ =>
      Raise (DataValidationError ("Invalid Account: bad type for " +:+ k))
  end.

(** Modelled from the spec: [service/models.py] is missing; an optional
    string field of the payload (section 3): absent or [null] is
    [None]. *)
Definition optional_str (m : gmap string json) (k : string)
  : result (option string) :=
  match m !! k with
  | None | Some JNull => Ok None
  | Some (JStr v) => Ok (Some v)
  | Some _ =>
      Raise (DataValidationError ("Invalid Account: bad type for " +:+ k))
  end.

(** Modelled from the spec: [service/models.py] is missing; the joining
    date (section 3): taken from the payload when it is there, otherwise
    the current date. *)
Definition date_or_today (today : Date.date) (m : gmap string json)
  : result Date.date :=
  match m !! "date_joined" with
  | None | Some JNull => Ok today
  | Some (JStr v) =>
      match Date.fromisoformat v with
      | Some d => Ok d
      | None =>
          Raise (DataValidationError "Invalid Account: bad date_joined")
      end
  | Some _ =>
      Raise (DataValidationError "Invalid Account: bad type for date_joined")
  end.

(** Modelled from the spec: [service/models.py] is missing;
    [deserialize(payload)] (section 4.1) fails with a validation error if
    the payload is not a mapping, if [name] or [email] is missing, or if a
    recognized field has the wrong type; otherwise it copies the
    recognized fields and ignores the others.  It never touches [id].
    [date_joined] defaults to the current date when absent (section 3);
    the tests post a [date_joined] and read the same value back, so a
    value in the payload is taken. *)
Definition deserialize (today : Date.date) (self : t) (payload : json)
  : result t :=
  match payload with
  | JObj m =>
      match required_str m "name" with
      | Raise e => Raise e
      | Ok n =>
      match required_str m "email" with
      | Raise e => Raise e
      | Ok e =>
      match optional_str m "address" with
      | Raise e => Raise e
      | Ok a =>
      match optional_str m "phone_number" with
      | Raise e => Raise e
      | Ok p =>
      match date_or_today today m with
      | Raise e => Raise e
      | Ok d => Ok (mk (id self) (Some n) (Some e) a p (Some d))
      end end end end end
  | _ =>
      Raise (DataValidationError
               "Invalid Account: body of request contained bad or no data")
  end.

(** Modelled from the spec: [service/models.py] is missing; an attribute
    as a JSON value, [None] as [null]. *)
Definition json_of_opt_str (o : option string) : json :=
  match o with Some v => JStr v | None => JNull end.

(** Modelled from the spec: [service/models.py] is missing; the [id] as
    a JSON value, [None] as [null]. *)
Definition json_of_opt_int (o : option Z) : json :=
  match o with Some v => JInt v | None => JNull end.

(** Modelled from the spec: [service/models.py] is missing; [serialize()]
    (section 4.1) produces a map with the keys [id], [name], [email],
    [address], [phone_number] and [date_joined], the date as an ISO-8601
    string; it succeeds on a fully populated entity.  On an entity without
    a date there is nothing to call [isoformat] on. *)
Definition serialize (self : t) : result json :=
  match date_joined self with
  | Some d =>
      Ok (JObj (<["id" := json_of_opt_int (id self)]>
               (<["name" := json_of_opt_str (name self)]>
               (<["email" := json_of_opt_str (email self)]>
               (<["address" := json_of_opt_str (address self)]>
               (<["phone_number" := json_of_opt_str (phone_number self)]>
               (<["date_joined" := JStr (Date.isoformat d)]> ∅)))))))
  | None => Raise (AttributeError "'NoneType' object has no attribute 'isoformat'")
  end.

(** Modelled from the spec: [service/models.py] is missing; the entity
    read back from the row stored under [i]. *)
Definition of_row (i : Z) (r : row) : t :=
  mk (Some i) (Some (row_name r)) (Some (row_email r)) (row_address r)
     (row_phone_number r) (Some (row_date_joined r)).

(** Modelled from the spec: [service/models.py] is missing; the row
    written for an entity, [None] when a required column (section 3) has
    no value. *)
Definition to_row (a : t) : option row :=
  match name a, email a, date_joined a with
  | Some n, Some e, Some d =>
      Some {| row_name := n; row_email := e; row_address := address a;
              row_phone_number := phone_number a; row_date_joined := d |}
  | _, _, _ => None
  end.

(** Modelled from the spec: [service/models.py] is missing; [create()]
    (section 4.1) persists a new row and assigns the generated [id] back
    onto the entity; it fails with a storage error on a backend failure
    (a required column without a value, a key already taken). *)
Definition create (self : t) : M t := λ s,
  let i := last_id s + 1 in
  match to_row self, rows s !! i with
  | Some r, None =>
      (Ok (set_id self i), {| rows := <[i := r]> (rows s); last_id := i |})
  | None, _ => (Raise (StorageError "null value in a required column"), s)
  | _, Some _ => (Raise (StorageError "duplicate key"), s)
  end.

(** Modelled from the spec: [service/models.py] is missing; [update()]
    (section 4.1) persists the changes to the existing row identified by
    [id]; it fails with a storage error if that row does not exist or on a
    backend failure. *)
Definition update (self : t) : M unit := λ s,
  match id self with
  | Some i =>
      match rows s !! i, to_row self with
      | Some _, Some r =>
          (Ok tt, {| rows := <[i := r]> (rows s); last_id := last_id s |})
      | None, _ => (Raise (StorageError "no such row"), s)
      | _, None =>
          (Raise (StorageError "null value in a required column"), s)
      end
  | None => (Raise (StorageError "update called with empty id"), s)
  end.

(** Modelled from the spec: [service/models.py] is missing; [delete()]
    (section 4.1) removes the row identified by [id], and is a no-op if
    the row is already absent. *)
Definition delete (self : t) : M unit := λ s,
  match id self with
  | Some i =>
      (Ok tt, {| rows := base.delete i (rows s); last_id := last_id s |})
  | None => (Ok tt, s)
  end.

(** Modelled from the spec: [service/models.py] is missing; [find(id)]
    (section 4.1) returns the single Account matching [id], or the "not
    found" sentinel [None]; it never raises for absence. *)
Definition find (i : Z) : M (option t) := λ s,
  (Ok (of_row i <$> rows s !! i), s).

(** Modelled from the spec: [service/models.py] is missing; [all()]
    (section 4.1) returns every Account row as a sequence, in no
    particular order. *)
Definition all : M (list t) := λ s,
  (Ok ((λ kr, of_row kr.1 kr.2) <$> map_to_list (rows s)), s).

End Account.

(** ** Error handlers *)

(** Modelled from the spec: [service/common/error_handlers.py] is missing;
    the error taxonomy of section 7: an aborted request answers with the
    status it was aborted with, a validation error with 400, a storage
    error (or any other exception) with 500; the body is the error detail. *)
Definition handle_exception (e : exn) : response :=
  match e with
  | HTTPException code description =>
      {| status_code := code; data := BodyText description; headers := ∅ |}
  | DataValidationError msg =>
      {| status_code := status.HTTP_400_BAD_REQUEST; data := BodyText msg;
         headers := ∅ |}
  | StorageError msg | AttributeError msg =>
      {| status_code := status.HTTP_500_INTERNAL_SERVER_ERROR;
         data := BodyText msg; headers := ∅ |}
  end.

(** The application runs a view function on the table and turns what it
    returns or raises into the response. *)
Definition dispatch (view : M response) (s : store) : response * store :=
  match view s with
  | (Ok r, s') => (r, s')
  | (Raise e, s') => (handle_exception e, s')
  end.

(** ** The view functions of [service/routes.py] *)

(** [check_content_type(media_type)]: returns when the header is present,
    not empty and equal to [media_type]; aborts with 415 otherwise. *)
Definition check_content_type (req : request) (media_type : string)
  : M unit :=
  let content_type := header_content_type req in
  match content_type with
  | Some ct =>
      if negb (String.eqb ct "") && String.eqb ct media_type
      then mret tt
      else abort status.HTTP_415_UNSUPPORTED_MEDIA_TYPE
                 ("Content-Type must be " +:+ media_type)
  | None =>
      abort status.HTTP_415_UNSUPPORTED_MEDIA_TYPE
            ("Content-Type must be " +:+ media_type)
  end.

(** [health()] *)
Definition health : M response :=
  mret (make_response (Resp (jsonify (JObj {["status" := JStr "OK"]})))
                      status.HTTP_200_OK ∅).

(** [index()] *)
Definition index : M response :=
  mret (make_response
          (Resp (jsonify (JObj (<["name" := JStr "Account REST API Service"]>
                               (<["version" := JStr "1.0"]> ∅)))))
          status.HTTP_200_OK ∅).

(** [create_accounts()], [POST /accounts]. *)
Definition create_accounts (today : Date.date) (req : request)
  : M response :=
  check_content_type req "application/json" ;;
  let account := Account.new in
  payload ← get_json req ;
  account ← lift (Account.deserialize today account payload) ;
  account ← Account.create account ;
  message ← lift (Account.serialize account) ;
  let location_url := "/" in
  mret (make_response (Resp (jsonify message)) status.HTTP_201_CREATED
                      {["Location" := location_url]}).

(** The body of the loop of [list_all_account]: one dictionary per
    account, appended to [result]. *)
Fixpoint list_loop (l : list Account.t) (result : list json)
  : M (list json) :=
  match l with
  | [] => mret result
  | account :: l' =>
      match Account.date_joined account with
      | Some d =>
          list_loop l'
            (result ++
             [JObj (<["id" := Account.json_of_opt_int (Account.id account)]>
                   (<["name" := Account.json_of_opt_str (Account.name account)]>
                   (<["email" := Account.json_of_opt_str (Account.email account)]>
                   (<["address" := Account.json_of_opt_str (Account.address account)]>
                   (<["phone_number" :=
                        Account.json_of_opt_str (Account.phone_number account)]>
                   (<["date_joined" := JStr (Date.isoformat d)]> ∅))))))])
      | None =>
          raise (AttributeError
                   "'NoneType' object has no attribute 'isoformat'")
      end
  end.

(** [list_all_account()], [GET /accounts]. *)
Definition list_all_account : M response :=
  list ← Account.all ;
  result ← list_loop list [] ;
  mret (jsonify (JArr result)).

(** [read_an_account(id)], [GET /accounts/<int:id>]. *)
Definition read_an_account (id : Z) : M response :=
  found ← Account.find id ;
  match found with
  | Some found =>
      message ← lift (Account.serialize found) ;
      mret (make_response (Resp (jsonify message)) status.HTTP_200_OK ∅)
  | None =>
      mret (make_response (Text "Not Found") status.HTTP_404_NOT_FOUND ∅)
  end.

(** [update_an_account(id)], [PUT /accounts/<int:id>]. *)
Definition update_an_account (today : Date.date) (req : request) (id : Z)
  : M response :=
  check_content_type req "application/json" ;;
  let account := Account.new in
  found ← Account.find id ;
  match found with
  | Some _ =>
      payload ← get_json req ;
      account ← lift (Account.deserialize today account payload) ;
      let account := Account.set_id account id in
      Account.update account ;;
      message ← lift (Account.serialize account) ;
      mret (make_response (Resp (jsonify message)) status.HTTP_200_OK ∅)
  | None =>
      mret (make_response (Text "Not Found") status.HTTP_404_NOT_FOUND ∅)
  end.

(** [delete_an_account(id)], [DELETE /accounts/<int:id>]. *)
Definition delete_an_account (id : Z) : M response :=
  found ← Account.find id ;
  match found with
  | Some found =>
      Account.delete found ;;
      mret (make_response (Text "") status.HTTP_204_NO_CONTENT ∅)
  | None =>
      mret (make_response (Text "Not Found") status.HTTP_404_NOT_FOUND ∅)
  end.

(** ** The routes *)

Definition POST_accounts (today : Date.date) (req : request) (s : store)
  : response * store :=
  dispatch (create_accounts today req) s.

Definition GET_accounts (s : store) : response * store :=
  dispatch list_all_account s.

Definition GET_account (id : Z) (s : store) : response * store :=
  dispatch (read_an_account id) s.

Definition PUT_account (today : Date.date) (req : request) (id : Z)
  (s : store) : response * store :=
  dispatch (update_an_account today req id) s.

Definition DELETE_account (id : Z) (s : store) : response * store :=
  dispatch (delete_an_account id) s.

(** The URL of an account, [url_for(<the read view>, id, _external=True)]:
    the host, then the rule [/accounts/<int:id>]. *)
Definition account_url (host : string) (id : Z) : string :=
  host +:+ "/accounts/" +:+ pretty id.

(** ** Sample data *)

Definition a_day : Date.date := Date.mk 2024 2 29 eq_refl.
Definition today0 : Date.date := Date.mk 2025 6 1 eq_refl.

Definition empty_store : store := {| rows := ∅; last_id := 0 |}.

Definition alice_payload : json :=
  JObj (<["name" := JStr "Alice"]>
       (<["email" := JStr "a@example.com"]>
       (<["address" := JStr "1 Main St"]>
       (<["phone_number" := JStr "555-0100"]>
       (<["date_joined" := JStr "2024-02-29"]> ∅))))).

Definition json_request (j : json) : request :=
  {| header_content_type := Some "application/json"; json_body := Some j |}.

Definition alice_row : row :=
  {| row_name := "Alice"; row_email := "a@example.com";
     row_address := Some "1 Main St"; row_phone_number := Some "555-0100";
     row_date_joined := a_day |}.

Definition bob_row : row :=
  {| row_name := "Bob"; row_email := "bob@example.com";
     row_address := None; row_phone_number := None;
     row_date_joined := today0 |}.

Definition one_store : store :=
  {| rows := {[1 := alice_row]}; last_id := 1 |}.

Definition two_store : store :=
  {| rows := <[2 := bob_row]> {[1 := alice_row]}; last_id := 2 |}.

(** A replacement payload that also tries to set the [id]. *)
Definition carol_fields : gmap string json :=
  <["id" := JInt 999]>
  (<["name" := JStr "Carol"]>
  (<["email" := JStr "carol@example.com"]>
  (<["address" := JStr "2 Side St"]>
  (<["phone_number" := JStr "555-0199"]>
  (<["date_joined" := JStr "2020-01-31"]> ∅))))).

(** A payload without [email], as in [test_bad_request]. *)
Definition name_only_payload : json :=
  JObj {["name" := JStr "not enough data"]}.

(** A valid payload sent as [test/html], as in
    [test_unsupported_media_type]. *)
Definition html_request : request :=
  {| header_content_type := Some "test/html";
     json_body := Some alice_payload |}.

(** ** Vocabulary of the statements *)

(** The answer of the handlers for an [id] that is not in the table. *)
Definition not_found : response :=
  {| status_code := 404; data := BodyText "Not Found"; headers := ∅ |}.

(** The payload has a field [k] (whatever its value). *)
Definition has_field (b : option json) (k : string) : Prop :=
  ∃ (m : gmap string json) (v : json), b = Some (JObj m) ∧ m !! k = Some v.

(** The [date_joined] of a payload, if there is one, is a date in ISO
    form. *)
Definition valid_date_field (m : gmap string json) : Prop :=
  match m !! "date_joined" with
  | None | Some JNull => True
  | Some (JStr v) => is_Some (Date.fromisoformat v)
  | Some _ => False
  end.

(** The JSON object that stands for the row [r] stored under [i]. *)
Definition entity_json (i : Z) (r : row) : json :=
  JObj (<["id" := JInt i]>
       (<["name" := JStr (row_name r)]>
       (<["email" := JStr (row_email r)]>
       (<["address" := Account.json_of_opt_str (row_address r)]>
       (<["phone_number" := Account.json_of_opt_str (row_phone_number r)]>
       (<["date_joined" := JStr (Date.isoformat (row_date_joined r))]> ∅)))))).

(** The keys of the JSON shape of an entity. *)
Definition entity_keys : gset string :=
  {["id"; "name"; "email"; "address"; "phone_number"; "date_joined"]}.

(** The number of elements of the array a response carries. *)
Definition listed_count (r : response) : option nat :=
  match data r with
  | BodyJson (JArr l) => Some (length l)
  | _ => None
  end.


(** ** The URL map built by the [@app.route] decorators *)

(** The verbs the service declares and its tests send. *)
Inductive method : Type := GET | POST | PUT | DELETE.

#[export] Instance method_eq_dec : EqDecision method.
Proof. solve_decision. Defined.

(** A segment of a rule: a literal, or the converter [<int:id>]. *)
Inductive segment : Type :=
| Lit (s : string)
| IntArg.

(** The view functions of [service/routes.py]. *)
Inductive endpoint : Type :=
| ep_health
| ep_index
| ep_create_accounts
| ep_list_all_account
| ep_read_an_account
| ep_update_an_account
| ep_delete_an_account.

Record rule : Type := {
  pattern : list segment;
  methods : list method;
  target : endpoint
}.

(** The rules, in the order of the decorators; a path is the list of its
    segments, so ["/"] is [[]] and ["/accounts/7"] is [["accounts"; "7"]].
    A rule without [methods] answers [GET]. *)
Definition url_map : list rule :=
  [ {| pattern := [Lit "health"]; methods := [GET]; target := ep_health |};
    {| pattern := []; methods := [GET]; target := ep_index |};
    {| pattern := [Lit "accounts"]; methods := [POST];
       target := ep_create_accounts |};
    {| pattern := [Lit "accounts"]; methods := [GET];
       target := ep_list_all_account |};
    {| pattern := [Lit "accounts"; IntArg]; methods := [GET];
       target := ep_read_an_account |};
    {| pattern := [Lit "accounts"; IntArg]; methods := [PUT];
       target := ep_update_an_account |};
    {| pattern := [Lit "accounts"; IntArg]; methods := [DELETE];
       target := ep_delete_an_account |} ].

(** The decimal value of a string of digits, [None] if a character is not a
    digit. *)
Fixpoint parse_digits (s : string) (acc : Z) : option Z :=
  match s with
  | EmptyString => Some acc
  | String c s' =>
      if Date.is_digit c then parse_digits s' (10 * acc + Date.digit_val c)
      else None
  end.

(** The [int] converter: one or more digits, no sign. *)
Definition int_converter (s : string) : option Z :=
  match s with
  | EmptyString => None
  | _ => parse_digits s 0
  end.

(** Matching a path against a pattern gives the converted arguments. *)
Fixpoint match_pattern (pat : list segment) (path : list string)
  : option (list Z) :=
  match pat, path with
  | [], [] => Some []
  | Lit l :: pat', seg :: path' =>
      if String.eqb l seg then match_pattern pat' path' else None
  | IntArg :: pat', seg :: path' =>
      match int_converter seg with
      | Some i => cons i <$> match_pattern pat' path'
      | None => None
      end
  | _, _ => None
  end.

Inductive routed : Type :=
| Matched (ep : endpoint) (args : list Z)
| RouteNotFound
| RouteMethodNotAllowed.

(** The first rule that matches the path and allows the verb, given
    whether an earlier rule matched the path alone. *)
Fixpoint route_in (rules : list rule) (m : method) (path : list string)
  (path_seen : bool) : routed :=
  match rules with
  | [] => if path_seen then RouteMethodNotAllowed else RouteNotFound
  | r :: rules' =>
      match match_pattern (pattern r) path with
      | Some args =>
          if bool_decide (m ∈ methods r) then Matched (target r) args
          else route_in rules' m path true
      | None => route_in rules' m path path_seen
      end
  end.

Definition route (m : method) (path : list string) : routed :=
  route_in url_map m path false.

(** The view function of an endpoint, applied to the converted arguments. *)
Definition view_of (today : Date.date) (ep : endpoint) (args : list Z)
  (req : request) : M response :=
  match ep, args with
  | ep_health, [] => health
  | ep_index, [] => index
  | ep_create_accounts, [] => create_accounts today req
  | ep_list_all_account, [] => list_all_account
  | ep_read_an_account, [id] => read_an_account id
  | ep_update_an_account, [id] => update_an_account today req id
  | ep_delete_an_account, [id] => delete_an_account id
  | _, _ => raise (StorageError "view called with the wrong arguments")
  end.

(** One request to the application: routing, the view function, and the
    error handlers. *)
Definition serve (today : Date.date) (m : method) (path : list string)
  (req : request) (s : store) : response * store :=
  match route m path with
  | Matched ep args => dispatch (view_of today ep args req) s
  | RouteNotFound =>
      dispatch (abort status.HTTP_404_NOT_FOUND "Not Found") s
  | RouteMethodNotAllowed =>
      dispatch (abort 405 "Method Not Allowed") s
  end.

(** A request as the test client sends it. *)
Record call : Type := {
  call_method : method;
  call_path : list string;
  call_request : request
}.

(** A sequence of requests, one after the other, on the same table. *)
Fixpoint serve_all (today : Date.date) (cs : list call) (s : store)
  : list response * store :=
  match cs with
  | [] => ([], s)
  | c :: cs' =>
      let '(r, s1) :=
        serve today (call_method c) (call_path c) (call_request c) s in
      let '(rs, s2) := serve_all today cs' s1 in
      (r :: rs, s2)
  end.

(** ** The helper of the test suites *)

(** [new_account["id"]] for the JSON body of a response. *)
Definition response_id (r : response) : option Z :=
  match data r with
  | BodyJson (JObj m) =>
      match m !! "id" with
      | Some (JInt i) => Some i
      | _ => None
      end
  | _ => None
  end.

(** [_create_accounts(count)] of [tests/test_routes.py]: one POST per
    account of the factory (given here as the list of their serialized
    forms), the assertion that each answers 201, and the accounts with the
    [id] of the answer.  [None] stands for a failed assertion. *)
Fixpoint _create_accounts (today : Date.date) (factory : list json)
  (s : store) : option (list (Z * json)) * store :=
  match factory with
  | [] => (Some [], s)
  | account :: rest =>
      let '(response, s1) :=
        serve today POST ["accounts"] (json_request account) s in
      if status_code response =? status.HTTP_201_CREATED then
        match response_id response with
        | Some i =>
            let '(accounts, s2) := _create_accounts today rest s1 in
            (cons (i, account) <$> accounts, s2)
        | None => (None, s1)
        end
      else (None, s1)
  end.

(** ** More sample data *)

(** A short history: two creates, a read, a delete, a request that is not
    routed, and an update. *)
Definition some_calls : list call :=
  [ {| call_method := POST; call_path := ["accounts"];
       call_request := json_request alice_payload |};
    {| call_method := POST; call_path := ["accounts"];
       call_request := json_request (JObj carol_fields) |};
    {| call_method := GET; call_path := ["accounts"; "1"];
       call_request := html_request |};
    {| call_method := DELETE; call_path := ["accounts"; "1"];
       call_request := html_request |};
    {| call_method := DELETE; call_path := ["accounts"];
       call_request := html_request |};
    {| call_method := PUT; call_path := ["accounts"; "2"];
       call_request := json_request alice_payload |} ].

(** ** More vocabulary *)

(** Every [id] in the table was generated by the storage: it is at most
    the last generated one. *)
Definition store_wf (s : store) : Prop :=
  ∀ k : Z, is_Some (rows s !! k) → k ≤ last_id s.

(** An optional field of a payload is absent, [null] or a string. *)
Definition optional_field_ok (m : gmap string json) (k : string) : Prop :=
  match m !! k with
  | None | Some JNull | Some (JStr _) => True
  | Some _ => False
  end.

(** A payload a create or an update accepts. *)
Definition valid_payload (j : json) : Prop :=
  ∃ (m : gmap string json) (n e : string),
    j = JObj m
    ∧ m !! "name" = Some (JStr n)
    ∧ m !! "email" = Some (JStr e)
    ∧ optional_field_ok m "address"
    ∧ optional_field_ok m "phone_number"
    ∧ valid_date_field m.

(** The field [k] of a JSON object. *)
Definition json_field (k : string) (j : json) : option json :=
  match j with
  | JObj m => m !! k
  | _ => None
  end.

(** The answer of the application to a request it does not route. *)
Definition error_response (code : Z) (description : string) : response :=
  {| status_code := code; data := BodyText description; headers := ∅ |}.

(** The path of an account as the tests build it,
    [f"{BASE_URL}/{account.id}"]. *)
Definition account_path (id : Z) : list string := ["accounts"; pretty id].

(** The consecutive integers [a + 1, ..., a + n]. *)
Definition ids_after (a : Z) (n : nat) : list Z :=
  (λ k : nat, a + 1 + Z.of_nat k) <$> seq 0 n.

(** * Properties *)

Ltac unfold_monad :=
  unfold get_json in *;
  unfold mbind, M_bind, mret, M_ret, abort, raise, lift in *.

(** ** The handlers on sample requests *)

Example ex_create :
  (POST_accounts today0 (json_request alice_payload) empty_store).1
  = {| status_code := 201;
       data := BodyJson (JObj (<["id" := JInt 1]>
                 (<["name" := JStr "Alice"]>
                 (<["email" := JStr "a@example.com"]>
                 (<["address" := JStr "1 Main St"]>
                 (<["phone_number" := JStr "555-0100"]>
                 (<["date_joined" := JStr "2024-02-29"]> ∅)))))));
       headers := {["Location" := "/"]} |}.
Proof. vm_compute. reflexivity. Qed.

Example ex_url : account_url "http://localhost" 1 = "http://localhost/accounts/1".
Proof. vm_compute. reflexivity. Qed.

(** ** The content-type check *)

Lemma check_content_type_ok (req : request) (s : store) :
  header_content_type req = Some "application/json" →
  check_content_type req "application/json" s = (Ok tt, s).
Proof.
  intros H. unfold check_content_type. rewrite H. reflexivity.
Qed.

Lemma check_content_type_415 (req : request) (s : store) :
  header_content_type req ≠ Some "application/json" →
  check_content_type req "application/json" s
  = (Raise (HTTPException 415 "Content-Type must be application/json"), s).
Proof.
  intros H. unfold check_content_type.
  destruct (header_content_type req) as [ct|] eqn:E; [|reflexivity].
  destruct (String.eqb ct "application/json") eqn:Eq.
  - apply String.eqb_eq in Eq. subst ct. congruence.
  - rewrite andb_false_r. reflexivity.
Qed.

Lemma create_accounts_415 today req s :
  header_content_type req ≠ Some "application/json" →
  POST_accounts today req s
  = ({| status_code := 415;
        data := BodyText "Content-Type must be application/json";
        headers := ∅ |}, s).
Proof.
  intros H. unfold POST_accounts, dispatch, create_accounts.
  unfold_monad. rewrite (check_content_type_415 _ _ H). reflexivity.
Qed.

Lemma update_an_account_415 today req id s :
  header_content_type req ≠ Some "application/json" →
  PUT_account today req id s
  = ({| status_code := 415;
        data := BodyText "Content-Type must be application/json";
        headers := ∅ |}, s).
Proof.
  intros H. unfold PUT_account, dispatch, update_an_account.
  unfold_monad. rewrite (check_content_type_415 _ _ H). reflexivity.
Qed.

(** C2: a POST /accounts or PUT /accounts/{id} request whose Content-Type
    header is missing or differs from application/json is answered with
    415, whatever its body is. *)
Theorem C2_wrong_content_type_415 (today : Date.date) (req : request)
    (id : Z) (s : store) :
  header_content_type req ≠ Some "application/json" →
  status_code (POST_accounts today req s).1 = 415
  ∧ status_code (PUT_account today req id s).1 = 415.
Proof.
  intros H. rewrite create_accounts_415, update_an_account_415 by done.
  split; reflexivity.
Qed.

(** ** Lookups *)

Lemma find_absent id s :
  rows s !! id = None → Account.find id s = (Ok None, s).
Proof. intros H. unfold Account.find. rewrite H. reflexivity. Qed.

Lemma find_present id r s :
  rows s !! id = Some r → Account.find id s = (Ok (Some (Account.of_row id r)), s).
Proof. intros H. unfold Account.find. rewrite H. reflexivity. Qed.

Lemma read_an_account_absent id s :
  rows s !! id = None → GET_account id s = (not_found, s).
Proof.
  intros H. unfold GET_account, dispatch, read_an_account. unfold_monad.
  rewrite (find_absent _ _ H). reflexivity.
Qed.

Lemma read_an_account_present id r s :
  rows s !! id = Some r →
  GET_account id s
  = ({| status_code := 200; data := BodyJson (entity_json id r);
        headers := ∅ |}, s).
Proof.
  intros H. unfold GET_account, dispatch, read_an_account. unfold_monad.
  rewrite (find_present _ _ _ H). reflexivity.
Qed.

(** C3: GET /accounts/{id} for an id with no account stored under it
    returns 404 with the plain-text body "Not Found". *)
Theorem C3_read_absent_404 (id : Z) (s : store) :
  rows s !! id = None →
  status_code (GET_account id s).1 = 404
  ∧ data (GET_account id s).1 = BodyText "Not Found"
  ∧ (GET_account id s).2 = s.
Proof.
  intros H. rewrite read_an_account_absent by done. repeat split.
Qed.

Lemma update_an_account_absent today req id s :
  header_content_type req = Some "application/json" →
  rows s !! id = None →
  PUT_account today req id s = (not_found, s).
Proof.
  intros Hct H. unfold PUT_account, dispatch, update_an_account.
  unfold_monad. rewrite (check_content_type_ok _ _ Hct).
  rewrite (find_absent _ _ H). reflexivity.
Qed.

(** C5: PUT /accounts/{id} with the JSON content type, for an id with no
    account stored under it, returns 404 and leaves the table as it was:
    no row is created. *)
Theorem C5_update_absent_404 (today : Date.date) (req : request) (id : Z)
    (s : store) :
  header_content_type req = Some "application/json" →
  rows s !! id = None →
  status_code (PUT_account today req id s).1 = 404
  ∧ data (PUT_account today req id s).1 = BodyText "Not Found"
  ∧ (PUT_account today req id s).2 = s
  ∧ rows (PUT_account today req id s).2 !! id = None.
Proof.
  intros Hct H. rewrite update_an_account_absent by done.
  repeat split. exact H.
Qed.

(** C9: in the update handler the content-type check comes before the
    lookup: for an id with no account, a request without the JSON content
    type is answered with 415, where the same request with the JSON content
    type would be answered with 404. *)
Theorem C9_update_415_before_404 (today : Date.date) (req : request)
    (id : Z) (s : store) :
  header_content_type req ≠ Some "application/json" →
  rows s !! id = None →
  status_code (PUT_account today req id s).1 = 415
  ∧ status_code
      (PUT_account today
         {| header_content_type := Some "application/json";
            json_body := json_body req |} id s).1 = 404.
Proof.
  intros H Habs. rewrite update_an_account_415 by done.
  rewrite update_an_account_absent by done. split; reflexivity.
Qed.

(** ** Deletion *)

Lemma delete_an_account_present id r s :
  rows s !! id = Some r →
  DELETE_account id s
  = ({| status_code := 204; data := BodyText ""; headers := ∅ |},
     {| rows := delete id (rows s); last_id := last_id s |}).
Proof.
  intros H. unfold DELETE_account, dispatch, delete_an_account.
  unfold_monad. rewrite (find_present _ _ _ H). reflexivity.
Qed.

Lemma delete_an_account_absent id s :
  rows s !! id = None → DELETE_account id s = (not_found, s).
Proof.
  intros H. unfold DELETE_account, dispatch, delete_an_account.
  unfold_monad. rewrite (find_absent _ _ H). reflexivity.
Qed.

(** C4: DELETE /accounts/{id} for an id with an account stored under it
    returns 204 with an empty body and removes the row; a second DELETE on
    the same id returns 404. *)
Theorem C4_delete_then_404 (id : Z) (s : store) :
  is_Some (rows s !! id) →
  status_code (DELETE_account id s).1 = 204
  ∧ data (DELETE_account id s).1 = BodyText ""
  ∧ rows (DELETE_account id s).2 !! id = None
  ∧ status_code (DELETE_account id (DELETE_account id s).2).1 = 404.
Proof.
  intros [r H]. rewrite (delete_an_account_present _ _ _ H). simpl.
  repeat split.
  - apply lookup_delete_eq.
  - rewrite delete_an_account_absent; [reflexivity|].
    simpl. apply lookup_delete_eq.
Qed.

(** C10: DELETE /accounts/{id} on a stored id removes the row with that id
    and no other: every other row is still there, with the same fields. *)
Theorem C10_delete_frame (id : Z) (s : store) :
  is_Some (rows s !! id) →
  rows (DELETE_account id s).2 = delete id (rows s)
  ∧ ∀ k : Z, k ≠ id → rows (DELETE_account id s).2 !! k = rows s !! k.
Proof.
  intros [r H]. rewrite (delete_an_account_present _ _ _ H). simpl.
  split; [reflexivity|]. intros k Hk. by apply lookup_delete_ne.
Qed.

(** ** Deserialization *)

Lemma date_or_today_ok today m :
  valid_date_field m → ∃ d, Account.date_or_today today m = Ok d.
Proof.
  unfold valid_date_field, Account.date_or_today.
  destruct (m !! "date_joined") as [[| | |v| |]|]; try done; eauto.
  intros [d ->]. eauto.
Qed.

Lemma deserialize_ok today self m n e a p d :
  m !! "name" = Some (JStr n) →
  m !! "email" = Some (JStr e) →
  Account.optional_str m "address" = Ok a →
  Account.optional_str m "phone_number" = Ok p →
  Account.date_or_today today m = Ok d →
  Account.deserialize today self (JObj m)
  = Ok (Account.mk (Account.id self) (Some n) (Some e) a p (Some d)).
Proof.
  intros Hn He Ha Hp Hd. unfold Account.deserialize, Account.required_str.
  rewrite Hn, He, Ha, Hp, Hd. reflexivity.
Qed.

(** A payload without [name] or without [email], or one that is not an
    object, is refused with a validation error. *)
Lemma deserialize_missing today self j :
  (∀ m, j = JObj m → m !! "name" = None ∨ m !! "email" = None) →
  ∃ msg, Account.deserialize today self j = Raise (DataValidationError msg).
Proof.
  intros H. destruct j as [| | | | |m]; simpl; eauto.
  unfold Account.required_str.
  destruct (H m eq_refl) as [Hn|He].
  - rewrite Hn. eauto.
  - rewrite He. destruct (m !! "name") as [[]|]; eauto.
Qed.

(** ** Update *)

Lemma update_an_account_present today req id r s m acc :
  header_content_type req = Some "application/json" →
  rows s !! id = Some r →
  json_body req = Some (JObj m) →
  Account.deserialize today Account.new (JObj m) = Ok acc →
  ∃ r' msg,
    Account.to_row (Account.set_id acc id) = Some r'
    ∧ Account.serialize (Account.set_id acc id) = Ok msg
    ∧ PUT_account today req id s
      = ({| status_code := 200; data := BodyJson msg; headers := ∅ |},
         {| rows := <[id := r']> (rows s); last_id := last_id s |}).
Proof.
  intros Hct Hr Hb Hd.
  unfold PUT_account, dispatch, update_an_account. unfold_monad.
  rewrite (check_content_type_ok _ _ Hct), (find_present _ _ _ Hr), Hb.
  unfold_monad. cbv beta iota. rewrite Hd.
  unfold Account.deserialize in Hd.
  destruct (Account.required_str m "name") as [n|]; [|done].
  destruct (Account.required_str m "email") as [e|]; [|done].
  destruct (Account.optional_str m "address") as [a|]; [|done].
  destruct (Account.optional_str m "phone_number") as [p|]; [|done].
  destruct (Account.date_or_today today m) as [d|]; [|done].
  injection Hd as <-. unfold Account.update. simpl. rewrite Hr.
  eexists _, _. repeat split; reflexivity.
Qed.

(** C6: PUT /accounts/{id} on a stored id with a full valid replacement
    payload returns 200 and a body whose name, email, address and
    phone_number are the payload's, while the id of the body is the id of
    the path, whatever the payload says. *)
Theorem C6_update_returns_payload (today : Date.date) (req : request)
    (id : Z) (s : store) (m : gmap string json) (n e a p : string) :
  is_Some (rows s !! id) →
  header_content_type req = Some "application/json" →
  json_body req = Some (JObj m) →
  m !! "name" = Some (JStr n) →
  m !! "email" = Some (JStr e) →
  m !! "address" = Some (JStr a) →
  m !! "phone_number" = Some (JStr p) →
  valid_date_field m →
  ∃ obj : gmap string json,
    status_code (PUT_account today req id s).1 = 200
    ∧ data (PUT_account today req id s).1 = BodyJson (JObj obj)
    ∧ obj !! "name" = Some (JStr n)
    ∧ obj !! "email" = Some (JStr e)
    ∧ obj !! "address" = Some (JStr a)
    ∧ obj !! "phone_number" = Some (JStr p)
    ∧ obj !! "id" = Some (JInt id).
Proof.
  intros [r Hr] Hct Hb Hn He Ha Hp Hd.
  destruct (date_or_today_ok today m Hd) as [d Hd'].
  assert (Hdes := deserialize_ok today Account.new m n e (Some a) (Some p) d
                    Hn He).
  unfold Account.optional_str in Hdes. rewrite Ha, Hp in Hdes.
  specialize (Hdes eq_refl eq_refl Hd').
  destruct (update_an_account_present today req id r s m _ Hct Hr Hb Hdes)
    as (r' & msg & _ & Hser & ->).
  simpl in Hser. injection Hser as <-.
  eexists. simpl. repeat split; by simplify_map_eq.
Qed.

(** ** Dates as ISO-8601 strings *)

Lemma digit_cases (n : Z) :
  ∃ k, n mod 10 = k ∧ (k = 0 ∨ k = 1 ∨ k = 2 ∨ k = 3 ∨ k = 4 ∨ k = 5
                        ∨ k = 6 ∨ k = 7 ∨ k = 8 ∨ k = 9).
Proof. exists (n mod 10). pose proof (Z.mod_pos_bound n 10). lia. Qed.

Lemma is_digit_digit (n : Z) : Date.is_digit (Date.digit n) = true.
Proof.
  unfold Date.digit. destruct (digit_cases n) as (k & -> & Hk).
  repeat (destruct Hk as [->|Hk]; [reflexivity|]). subst k. reflexivity.
Qed.

Lemma digit_val_digit (n : Z) : Date.digit_val (Date.digit n) = n mod 10.
Proof.
  unfold Date.digit. destruct (digit_cases n) as (k & -> & Hk).
  repeat (destruct Hk as [->|Hk]; [reflexivity|]). subst k. reflexivity.
Qed.

Lemma isoformat_unfold (d : Date.date) :
  Date.isoformat d
  = String (Date.digit (Date.year d / 10 / 10 / 10))
    (String (Date.digit (Date.year d / 10 / 10))
    (String (Date.digit (Date.year d / 10))
    (String (Date.digit (Date.year d))
    (String "-"
    (String (Date.digit (Date.month d / 10))
    (String (Date.digit (Date.month d))
    (String "-"
    (String (Date.digit (Date.day d / 10))
    (String (Date.digit (Date.day d)) EmptyString))))))))).
Proof. reflexivity. Qed.

Lemma isoformat_shape (d : Date.date) :
  Date.is_iso_shape (Date.isoformat d) = true.
Proof.
  rewrite isoformat_unfold. unfold Date.is_iso_shape.
  rewrite !is_digit_digit. reflexivity.
Qed.

Lemma make_valid (y m d : Z) (H : Date.valid y m d = true) :
  Date.make y m d = Some (Date.mk y m d H).
Proof.
  unfold Date.make. destruct (Bool.bool_dec (Date.valid y m d) true) as [H'|H'].
  - do 2 f_equal. apply proof_irrel.
  - contradiction.
Qed.

Lemma valid_bounds (y m d : Z) :
  Date.valid y m d = true → 1 ≤ y ≤ 9999 ∧ 1 ≤ m ≤ 12 ∧ 1 ≤ d ≤ 31.
Proof.
  unfold Date.valid, Date.days_in_month. intros H.
  repeat (apply andb_prop in H as [H ?]).
  repeat match goal with
         | H : (_ <=? _) = true |- _ => apply Z.leb_le in H
         end.
  repeat split; try lia.
  destruct (m =? 2); [destruct (Date.is_leap y); lia|].
  destruct ((m =? 4) || (m =? 6) || (m =? 9) || (m =? 11)); lia.
Qed.

(** The string [isoformat] renders reads back as the same date. *)
Lemma fromisoformat_isoformat (d : Date.date) :
  Date.fromisoformat (Date.isoformat d) = Some d.
Proof.
  pose proof (isoformat_shape d) as Hs. rewrite isoformat_unfold in *.
  unfold Date.fromisoformat. rewrite Hs. rewrite !digit_val_digit.
  destruct d as [y m dd H]. simpl.
  destruct (valid_bounds _ _ _ H) as (Hy & Hm & Hd).
  replace (1000 * ((y / 10 / 10 / 10) mod 10) + 100 * ((y / 10 / 10) mod 10)
           + 10 * ((y / 10) mod 10) + y mod 10) with y
    by (Z.div_mod_to_equations; lia).
  replace (10 * ((m / 10) mod 10) + m mod 10) with m
    by (Z.div_mod_to_equations; lia).
  replace (10 * ((dd / 10) mod 10) + dd mod 10) with dd
    by (Z.div_mod_to_equations; lia).
  apply make_valid.
Qed.

(** ** Listing *)

Lemma list_loop_rows (l : list (Z * row)) (result : list json) (s : store) :
  list_loop ((λ kr, Account.of_row kr.1 kr.2) <$> l) result s
  = (Ok (result ++ ((λ kr, entity_json kr.1 kr.2) <$> l))%list, s).
Proof.
  revert result. induction l as [|[i r] l IH]; intros result.
  - simpl. rewrite app_nil_r. reflexivity.
  - rewrite !fmap_cons. cbn [list_loop Account.of_row Account.date_joined].
    rewrite IH, <- app_assoc. reflexivity.
Qed.

Lemma list_all_account_ok (s : store) :
  GET_accounts s
  = ({| status_code := 200;
        data := BodyJson
                  (JArr ((λ kr, entity_json kr.1 kr.2) <$> map_to_list (rows s)));
        headers := ∅ |}, s).
Proof.
  unfold GET_accounts, dispatch, list_all_account, Account.all.
  unfold_monad. rewrite list_loop_rows. reflexivity.
Qed.

Lemma listed_count_size (s : store) :
  listed_count (GET_accounts s).1 = Some (size (rows s)).
Proof.
  rewrite list_all_account_ok. unfold listed_count. simpl.
  by rewrite length_fmap, length_map_to_list.
Qed.

Lemma entity_json_keys (i : Z) (r : row) :
  ∃ m, entity_json i r = JObj m ∧ dom m = entity_keys.
Proof.
  eexists. split; [reflexivity|].
  rewrite !dom_insert_L, dom_empty_L. unfold entity_keys. set_solver.
Qed.

(** C8: GET /accounts returns 200 with a JSON array that has one object per
    stored account; each object has exactly the keys id, name, email,
    address, phone_number and date_joined, and its date_joined is the
    joining date as a YYYY-MM-DD string. *)
Theorem C8_list_all_accounts (s : store) :
  ∃ l : list json,
    GET_accounts s
    = ({| status_code := 200; data := BodyJson (JArr l); headers := ∅ |}, s)
    ∧ length l = size (rows s)
    ∧ (∀ (i : Z) (r : row), rows s !! i = Some r →
         ∃ m, JObj m ∈ l ∧ m !! "id" = Some (JInt i))
    ∧ (∀ o : json, o ∈ l →
         ∃ (m : gmap string json) (i : Z) (r : row) (d : string),
           o = JObj m
           ∧ rows s !! i = Some r
           ∧ dom m = entity_keys
           ∧ m !! "id" = Some (JInt i)
           ∧ m !! "name" = Some (JStr (row_name r))
           ∧ m !! "email" = Some (JStr (row_email r))
           ∧ m !! "address" = Some (Account.json_of_opt_str (row_address r))
           ∧ m !! "phone_number"
             = Some (Account.json_of_opt_str (row_phone_number r))
           ∧ m !! "date_joined" = Some (JStr d)
           ∧ Date.is_iso_shape d = true
           ∧ Date.fromisoformat d = Some (row_date_joined r)).
Proof.
  eexists. split; [apply list_all_account_ok|]. split; [|split].
  - by rewrite length_fmap, length_map_to_list.
  - intros i r Hr. eexists. split.
    + apply list_elem_of_fmap. exists (i, r). split; [reflexivity|].
      by apply elem_of_map_to_list.
    + by simplify_map_eq.
  - intros o Ho. apply list_elem_of_fmap in Ho as ([i r] & -> & Hir).
    apply elem_of_map_to_list in Hir.
    destruct (entity_json_keys i r) as (m & Hm & Hdom).
    exists m, i, r, (Date.isoformat (row_date_joined r)).
    unfold entity_json in Hm. injection Hm as <-.
    split; [reflexivity|]. split; [exact Hir|]. split; [exact Hdom|].
    split; [by simplify_map_eq|]. split; [by simplify_map_eq|].
    split; [by simplify_map_eq|]. split; [by simplify_map_eq|].
    split; [by simplify_map_eq|]. split; [by simplify_map_eq|].
    split; [apply isoformat_shape | apply fromisoformat_isoformat].
Qed.

(** ** Creation *)

Lemma create_accounts_created today req s m acc :
  header_content_type req = Some "application/json" →
  json_body req = Some (JObj m) →
  Account.deserialize today Account.new (JObj m) = Ok acc →
  rows s !! (last_id s + 1) = None →
  ∃ r msg,
    Account.to_row acc = Some r
    ∧ Account.serialize (Account.set_id acc (last_id s + 1)) = Ok msg
    ∧ POST_accounts today req s
      = ({| status_code := 201; data := BodyJson msg;
            headers := {["Location" := "/"]} |},
         {| rows := <[last_id s + 1 := r]> (rows s);
            last_id := last_id s + 1 |}).
Proof.
  intros Hct Hb Hd Hfresh.
  unfold POST_accounts, dispatch, create_accounts. unfold_monad.
  rewrite (check_content_type_ok _ _ Hct), Hb.
  unfold_monad. cbv beta iota. rewrite Hd.
  unfold Account.deserialize in Hd.
  destruct (Account.required_str m "name") as [n|]; [|done].
  destruct (Account.required_str m "email") as [e|]; [|done].
  destruct (Account.optional_str m "address") as [a|]; [|done].
  destruct (Account.optional_str m "phone_number") as [p|]; [|done].
  destruct (Account.date_or_today today m) as [d|]; [|done].
  injection Hd as <-. unfold Account.create.
  cbn [Account.to_row Account.name Account.email Account.date_joined
       Account.address Account.phone_number].
  rewrite Hfresh. eexists _, _. repeat split; reflexivity.
Qed.

Lemma append_length (a b : string) :
  String.length (a +:+ b) = (String.length a + String.length b)%nat.
Proof. induction a as [|c a IH]; simpl; [reflexivity|]. by rewrite IH. Qed.

(** The placeholder is not the URL of any account. *)
Lemma placeholder_not_account_url (host : string) (id : Z) :
  "/" ≠ account_url host id.
Proof.
  intros H. apply (f_equal String.length) in H. unfold account_url in H.
  rewrite !append_length in H. simpl in H. lia.
Qed.

(** Whatever the request and the table, [create_accounts] never answers
    with the URL of an account in the [Location] header. *)
Lemma create_accounts_location today req s host id :
  headers (POST_accounts today req s).1 !! "Location"
  ≠ Some (account_url host id).
Proof.
  unfold POST_accounts, dispatch.
  destruct (create_accounts today req s) as [[r|e] s'] eqn:E; simpl.
  - unfold create_accounts in E. unfold_monad.
    destruct (check_content_type req "application/json" s) as [[[]|] s1];
      [|done].
    destruct (json_body req) as [j|]; [|done]. cbv beta iota in E.
    destruct (Account.deserialize today Account.new j) as [acc|]; [|done].
    destruct (Account.create acc s1) as [[acc'|] s2]; [|done].
    destruct (Account.serialize acc') as [msg|]; [|done].
    injection E as <- <-. simpl.
    rewrite lookup_union_l by apply lookup_empty.
    rewrite lookup_singleton_eq. intros [=H].
    by apply placeholder_not_account_url in H.
  - destruct e; simpl; rewrite lookup_empty; done.
Qed.

(** C1: on a valid create request the answer is 201 with the serialized
    created entity as body, but the [Location] header holds the placeholder
    ["/"], not the URL of the created account. *)
Theorem C1_create_location_placeholder :
  let out := POST_accounts today0 (json_request alice_payload) empty_store in
  status_code out.1 = 201
  ∧ rows out.2 !! 1 = Some alice_row
  ∧ (∃ msg : json,
       Account.serialize (Account.of_row 1 alice_row) = Ok msg
       ∧ data out.1 = BodyJson msg)
  ∧ headers out.1 !! "Location" = Some "/"
  ∧ ∀ host : string, headers out.1 !! "Location" ≠ Some (account_url host 1).
Proof.
  assert (E : POST_accounts today0 (json_request alice_payload) empty_store
              = ({| status_code := 201;
                    data := BodyJson (entity_json 1 alice_row);
                    headers := {["Location" := "/"]} |},
                 {| rows := {[1 := alice_row]}; last_id := 1 |})).
  { vm_compute. reflexivity. }
  cbv zeta. rewrite E. cbn [fst snd status_code data headers rows].
  split; [reflexivity|]. split; [apply lookup_singleton_eq|].
  split; [eexists; split; reflexivity|].
  split; [apply lookup_singleton_eq|].
  intros host. rewrite lookup_singleton_eq. intros [=H].
  by apply placeholder_not_account_url in H.
Qed.

(** C7: a POST /accounts request with the JSON content type whose body has
    no [name] or no [email] is answered with 400 and leaves the table as it
    was, so a following GET /accounts lists as many accounts as before. *)
Theorem C7_create_missing_field_400 (today : Date.date) (req : request)
    (s : store) :
  header_content_type req = Some "application/json" →
  ¬ has_field (json_body req) "name" ∨ ¬ has_field (json_body req) "email" →
  status_code (POST_accounts today req s).1 = 400
  ∧ (POST_accounts today req s).2 = s
  ∧ listed_count (GET_accounts (POST_accounts today req s).2).1
    = listed_count (GET_accounts s).1
  ∧ listed_count (GET_accounts s).1 = Some (size (rows s)).
Proof.
  intros Hct Hmiss.
  assert (E : ∃ r, POST_accounts today req s = (r, s) ∧ status_code r = 400).
  { unfold POST_accounts, dispatch, create_accounts. unfold_monad.
    rewrite (check_content_type_ok _ _ Hct).
    destruct (json_body req) as [j|] eqn:Hb; [|eexists; split; reflexivity].
    cbv beta iota.
    destruct (deserialize_missing today Account.new j) as [msg ->].
    - intros m ->.
      destruct (m !! "name") as [v|] eqn:Hn; [|by left].
      destruct (m !! "email") as [w|] eqn:He; [|by right].
      exfalso. destruct Hmiss as [H|H]; apply H; unfold has_field; eauto.
    - eexists; split; reflexivity. }
  destruct E as (r & -> & Hr). simpl.
  split; [exact Hr|]. split; [reflexivity|]. split; [reflexivity|].
  apply listed_count_size.
Qed.

(** ** The statements on the sample data *)

Lemma C2_wrong_content_type_415_witness :
  header_content_type html_request ≠ Some "application/json"
  ∧ status_code (POST_accounts today0 html_request one_store).1 = 415
  ∧ status_code (PUT_account today0 html_request 1 one_store).1 = 415.
Proof.
  split; [discriminate|].
  apply (C2_wrong_content_type_415 today0 html_request 1 one_store).
  discriminate.
Defined.

Lemma C3_read_absent_404_witness :
  rows one_store !! 999999 = None
  ∧ status_code (GET_account 999999 one_store).1 = 404
  ∧ data (GET_account 999999 one_store).1 = BodyText "Not Found"
  ∧ (GET_account 999999 one_store).2 = one_store.
Proof.
  split; [reflexivity|].
  apply (C3_read_absent_404 999999 one_store). reflexivity.
Defined.

Lemma C4_delete_then_404_witness :
  is_Some (rows two_store !! 1)
  ∧ status_code (DELETE_account 1 two_store).1 = 204
  ∧ data (DELETE_account 1 two_store).1 = BodyText ""
  ∧ rows (DELETE_account 1 two_store).2 !! 1 = None
  ∧ status_code (DELETE_account 1 (DELETE_account 1 two_store).2).1 = 404.
Proof.
  split; [exists alice_row; reflexivity|].
  apply (C4_delete_then_404 1 two_store). exists alice_row; reflexivity.
Defined.

Lemma C5_update_absent_404_witness :
  header_content_type (json_request alice_payload) = Some "application/json"
  ∧ rows one_store !! 9999999 = None
  ∧ status_code
      (PUT_account today0 (json_request alice_payload) 9999999 one_store).1
    = 404
  ∧ data (PUT_account today0 (json_request alice_payload) 9999999 one_store).1
    = BodyText "Not Found"
  ∧ (PUT_account today0 (json_request alice_payload) 9999999 one_store).2
    = one_store
  ∧ rows (PUT_account today0 (json_request alice_payload) 9999999
            one_store).2 !! 9999999 = None.
Proof.
  split; [reflexivity|]. split; [reflexivity|].
  apply (C5_update_absent_404 today0 (json_request alice_payload) 9999999
           one_store); reflexivity.
Defined.

Lemma C6_update_returns_payload_witness :
  is_Some (rows one_store !! 1)
  ∧ valid_date_field carol_fields
  ∧ ∃ obj : gmap string json,
      status_code
        (PUT_account today0 (json_request (JObj carol_fields)) 1 one_store).1
      = 200
      ∧ data
          (PUT_account today0 (json_request (JObj carol_fields)) 1 one_store).1
        = BodyJson (JObj obj)
      ∧ obj !! "name" = Some (JStr "Carol")
      ∧ obj !! "email" = Some (JStr "carol@example.com")
      ∧ obj !! "address" = Some (JStr "2 Side St")
      ∧ obj !! "phone_number" = Some (JStr "555-0199")
      ∧ obj !! "id" = Some (JInt 1).
Proof.
  assert (Hd : valid_date_field carol_fields).
  { unfold valid_date_field. vm_compute. eexists. reflexivity. }
  split; [exists alice_row; reflexivity|]. split; [exact Hd|].
  apply (C6_update_returns_payload today0 (json_request (JObj carol_fields))
           1 one_store carol_fields "Carol" "carol@example.com" "2 Side St"
           "555-0199");
    [exists alice_row; reflexivity | reflexivity .. | exact Hd].
Defined.

Lemma C7_create_missing_field_400_witness :
  header_content_type (json_request name_only_payload)
  = Some "application/json"
  ∧ ¬ has_field (json_body (json_request name_only_payload)) "email"
  ∧ status_code
      (POST_accounts today0 (json_request name_only_payload) one_store).1
    = 400
  ∧ (POST_accounts today0 (json_request name_only_payload) one_store).2
    = one_store
  ∧ listed_count
      (GET_accounts
         (POST_accounts today0 (json_request name_only_payload)
            one_store).2).1
    = listed_count (GET_accounts one_store).1
  ∧ listed_count (GET_accounts one_store).1 = Some (size (rows one_store)).
Proof.
  assert (Hno : ¬ has_field (json_body (json_request name_only_payload))
                  "email").
  { intros (m & v & Hm & Hv). injection Hm as <-. discriminate Hv. }
  split; [reflexivity|]. split; [exact Hno|].
  apply (C7_create_missing_field_400 today0 (json_request name_only_payload)
           one_store); [reflexivity | right; exact Hno].
Defined.

Lemma C9_update_415_before_404_witness :
  header_content_type html_request ≠ Some "application/json"
  ∧ rows one_store !! 9999999 = None
  ∧ status_code (PUT_account today0 html_request 9999999 one_store).1 = 415
  ∧ status_code
      (PUT_account today0
         {| header_content_type := Some "application/json";
            json_body := json_body html_request |} 9999999 one_store).1
    = 404.
Proof.
  split; [discriminate|]. split; [reflexivity|].
  apply (C9_update_415_before_404 today0 html_request 9999999 one_store);
    [discriminate | reflexivity].
Defined.

Lemma C10_delete_frame_witness :
  is_Some (rows two_store !! 1)
  ∧ rows (DELETE_account 1 two_store).2 = delete 1 (rows two_store)
  ∧ ∀ k : Z, k ≠ 1 →
      rows (DELETE_account 1 two_store).2 !! k = rows two_store !! k.
Proof.
  split; [exists alice_row; reflexivity|].
  apply (C10_delete_frame 1 two_store). exists alice_row; reflexivity.
Defined.

(** * Further properties of the handlers *)

(** ** The content-type check, for any media type *)

(** X1: [check_content_type] returns exactly when the header is present and
    equal to the expected media type and that media type is not empty (an
    empty header value is falsy); in every other case it aborts with 415
    and the message naming the media type.  It never touches the table. *)
Theorem check_content_type_iff (req : request) (media_type : string)
    (s : store) :
  (header_content_type req = Some media_type ∧ media_type ≠ ""
   → check_content_type req media_type s = (Ok tt, s))
  ∧ (¬ (header_content_type req = Some media_type ∧ media_type ≠ "")
     → check_content_type req media_type s
       = (Raise (HTTPException 415 ("Content-Type must be " +:+ media_type)),
          s)).
Proof.
  unfold check_content_type, abort, raise, mret, M_ret. split.
  - intros [-> Hne]. rewrite String.eqb_refl.
    destruct (String.eqb media_type "") eqn:E; [|reflexivity].
    apply String.eqb_eq in E. contradiction.
  - intros Hn. destruct (header_content_type req) as [ct|]; [|reflexivity].
    destruct (String.eqb ct media_type) eqn:E1;
      [|by rewrite andb_false_r].
    destruct (String.eqb ct "") eqn:E2; [reflexivity|].
    apply String.eqb_eq in E1. subst ct. exfalso. apply Hn.
    split; [reflexivity|]. intros ->. by rewrite String.eqb_refl in E2.
Qed.

(** ** Payloads *)

Lemma optional_str_ok (m : gmap string json) (k : string) :
  optional_field_ok m k → ∃ o, Account.optional_str m k = Ok o.
Proof.
  unfold optional_field_ok, Account.optional_str.
  destruct (m !! k) as [[| | |v| |]|]; try done; eauto.
Qed.

Lemma deserialize_valid today self m n e :
  m !! "name" = Some (JStr n) →
  m !! "email" = Some (JStr e) →
  optional_field_ok m "address" →
  optional_field_ok m "phone_number" →
  valid_date_field m →
  ∃ a p d,
    Account.deserialize today self (JObj m)
    = Ok (Account.mk (Account.id self) (Some n) (Some e) a p (Some d)).
Proof.
  intros Hn He Ha Hp Hd.
  destruct (optional_str_ok m "address" Ha) as [a Ha'].
  destruct (optional_str_ok m "phone_number" Hp) as [p Hp'].
  destruct (date_or_today_ok today m Hd) as [d Hd'].
  exists a, p, d. by apply deserialize_ok.
Qed.

Lemma wf_fresh (s : store) :
  store_wf s → rows s !! (last_id s + 1) = None.
Proof.
  intros Hwf. destruct (rows s !! (last_id s + 1)) as [r|] eqn:E; [|done].
  assert (last_id s + 1 ≤ last_id s) by (apply Hwf; eauto). lia.
Qed.

(** [deserialize] raises nothing but validation errors. *)
Lemma deserialize_raises today self j e :
  Account.deserialize today self j = Raise e →
  ∃ msg, e = DataValidationError msg.
Proof.
  unfold Account.deserialize, Account.required_str, Account.optional_str,
    Account.date_or_today.
  destruct j as [| | | | |m]; try (intros [= <-]; eauto; fail).
  destruct (m !! "name") as [[]|]; try (intros [= <-]; eauto; fail).
  destruct (m !! "email") as [[]|]; try (intros [= <-]; eauto; fail).
  destruct (m !! "address") as [[]|]; try (intros [= <-]; eauto; fail);
    (destruct (m !! "phone_number") as [[]|];
       try (intros [= <-]; eauto; fail));
    (destruct (m !! "date_joined") as [[| | |v| |]|];
       try (intros [= <-]; eauto; fail);
       try (destruct (Date.fromisoformat v);
            try (intros [= <-]; eauto; fail)));
    discriminate.
Qed.

(** ** Creation, in general *)

Lemma create_accounts_valid today req s m n e :
  header_content_type req = Some "application/json" →
  json_body req = Some (JObj m) →
  m !! "name" = Some (JStr n) →
  m !! "email" = Some (JStr e) →
  optional_field_ok m "address" →
  optional_field_ok m "phone_number" →
  valid_date_field m →
  rows s !! (last_id s + 1) = None →
  ∃ r,
    row_name r = n ∧ row_email r = e
    ∧ POST_accounts today req s
      = ({| status_code := 201;
            data := BodyJson (entity_json (last_id s + 1) r);
            headers := {["Location" := "/"]} |},
         {| rows := <[last_id s + 1 := r]> (rows s);
            last_id := last_id s + 1 |}).
Proof.
  intros Hct Hb Hn He Ha Hp Hd Hfresh.
  destruct (deserialize_valid today Account.new m n e Hn He Ha Hp Hd)
    as (a & p & d & Hdes).
  destruct (create_accounts_created today req s m _ Hct Hb Hdes Hfresh)
    as (r & msg & Hrow & Hser & ->).
  simpl in Hrow, Hser. injection Hrow as <-. injection Hser as <-.
  exists {| row_name := n; row_email := e; row_address := a;
            row_phone_number := p; row_date_joined := d |}.
  split; [reflexivity|]. split; reflexivity.
Qed.

(** The outcomes of [create_accounts]: a row is added under the next id
    and the answer is 201, or the table is untouched and the answer is
    an error. *)
Lemma create_accounts_cases today req s :
  (∃ r, rows s !! (last_id s + 1) = None
        ∧ status_code (POST_accounts today req s).1 = 201
        ∧ data (POST_accounts today req s).1
          = BodyJson (entity_json (last_id s + 1) r)
        ∧ (POST_accounts today req s).2
          = {| rows := <[last_id s + 1 := r]> (rows s);
               last_id := last_id s + 1 |})
  ∨ ((POST_accounts today req s).2 = s
     ∧ (status_code (POST_accounts today req s).1 = 400
        ∨ status_code (POST_accounts today req s).1 = 415
        ∨ status_code (POST_accounts today req s).1 = 500)).
Proof.
  unfold POST_accounts, dispatch, create_accounts. unfold_monad.
  unfold check_content_type, abort, raise, mret, M_ret.
  destruct (header_content_type req) as [ct|]; [|right; split; auto].
  destruct (negb (String.eqb ct "") && String.eqb ct "application/json");
    [|right; split; auto].
  destruct (json_body req) as [j|]; [|right; split; auto].
  destruct (Account.deserialize today Account.new j) as [acc|ex] eqn:Hdes.
  2: { apply deserialize_raises in Hdes as [msg ->]. right; split; auto. }
  unfold Account.create.
  destruct (Account.to_row acc) as [r|] eqn:Hrow;
    [|destruct (rows s !! (last_id s + 1)); right; split; auto].
  destruct (rows s !! (last_id s + 1)) eqn:Hf; [right; split; auto|].
  left. exists r.
  destruct acc as [i n e a p d]. unfold Account.to_row in Hrow.
  simpl in Hrow. destruct n as [n|], e as [e|], d as [d|]; try done.
  injection Hrow as <-. simpl. repeat split; reflexivity.
Qed.

(** X2: on a table whose ids were all generated by the storage, a create
    request with the JSON content type and a payload with a string [name]
    and [email] (the optional fields well typed) is answered with 201, the
    placeholder [Location] and the serialized entity; the entity gets the
    next id, whatever [id] the payload carries, and exactly one row is
    added under that id. *)
Theorem create_accounts_adds_one_row (today : Date.date) (req : request)
    (s : store) (m : gmap string json) (n e : string) :
  store_wf s →
  header_content_type req = Some "application/json" →
  json_body req = Some (JObj m) →
  m !! "name" = Some (JStr n) →
  m !! "email" = Some (JStr e) →
  optional_field_ok m "address" →
  optional_field_ok m "phone_number" →
  valid_date_field m →
  ∃ r : row,
    row_name r = n ∧ row_email r = e
    ∧ status_code (POST_accounts today req s).1 = 201
    ∧ data (POST_accounts today req s).1
      = BodyJson (entity_json (last_id s + 1) r)
    ∧ headers (POST_accounts today req s).1 !! "Location" = Some "/"
    ∧ rows s !! (last_id s + 1) = None
    ∧ rows (POST_accounts today req s).2 = <[last_id s + 1 := r]> (rows s)
    ∧ size (rows (POST_accounts today req s).2) = S (size (rows s))
    ∧ store_wf (POST_accounts today req s).2.
Proof.
  intros Hwf Hct Hb Hn He Ha Hp Hd.
  pose proof (wf_fresh s Hwf) as Hfresh.
  destruct (create_accounts_valid today req s m n e Hct Hb Hn He Ha Hp Hd
              Hfresh) as (r & Hrn & Hre & ->).
  exists r. cbn [fst snd status_code data headers rows last_id].
  split; [done|]. split; [done|]. split; [done|]. split; [done|].
  split; [apply lookup_singleton_eq|]. split; [done|]. split; [done|].
  split; [by apply map_size_insert_None|].
  intros k [x Hk]. cbn [rows last_id] in *.
  destruct (decide (k = last_id s + 1)) as [->|Hne]; [lia|].
  rewrite lookup_insert_ne in Hk by done.
  assert (k ≤ last_id s) by (apply Hwf; eauto). lia.
Qed.

(** X3: [create_accounts] answers with 201, 400, 415 or 500 and nothing
    else, and it changes the table only when it answers 201: on every
    other answer the table is exactly as before. *)
Theorem create_accounts_all_or_nothing (today : Date.date) (req : request)
    (s : store) :
  (status_code (POST_accounts today req s).1 = 201
   ∨ status_code (POST_accounts today req s).1 = 400
   ∨ status_code (POST_accounts today req s).1 = 415
   ∨ status_code (POST_accounts today req s).1 = 500)
  ∧ (status_code (POST_accounts today req s).1 ≠ 201
     → (POST_accounts today req s).2 = s).
Proof.
  destruct (create_accounts_cases today req s)
    as [(r & _ & H201 & _ & _)|[Hs Hc]].
  - split; [by left|]. intros Hn. contradiction.
  - split; [right; exact Hc|]. intros _. exact Hs.
Qed.

(** X4: reading back what was created: after a create answered with 201,
    GET on the id of the returned entity answers 200 with the very body the
    create returned, and changes nothing. *)
Theorem create_then_read (today : Date.date) (req : request) (s : store) :
  status_code (POST_accounts today req s).1 = 201 →
  ∃ i : Z,
    response_id (POST_accounts today req s).1 = Some i
    ∧ status_code (GET_account i (POST_accounts today req s).2).1 = 200
    ∧ data (GET_account i (POST_accounts today req s).2).1
      = data (POST_accounts today req s).1
    ∧ (GET_account i (POST_accounts today req s).2).2
      = (POST_accounts today req s).2.
Proof.
  intros H201.
  destruct (create_accounts_cases today req s)
    as [(r & _ & _ & Hd & Hs)|[_ Hc]]; [|lia].
  exists (last_id s + 1). rewrite Hs.
  rewrite (read_an_account_present _ r) by apply lookup_insert_eq.
  unfold response_id. rewrite Hd. cbn [fst snd status_code data].
  split; [by simplify_map_eq|]. done.
Qed.

(** X5: after a create answered with 201, GET /accounts lists one account
    more than before, and the body the create returned is one of the
    listed objects. *)
Theorem create_then_list (today : Date.date) (req : request) (s : store) :
  status_code (POST_accounts today req s).1 = 201 →
  ∃ (o : json) (l : list json),
    data (POST_accounts today req s).1 = BodyJson o
    ∧ data (GET_accounts (POST_accounts today req s).2).1 = BodyJson (JArr l)
    ∧ o ∈ l
    ∧ length l = S (size (rows s)).
Proof.
  intros H201.
  destruct (create_accounts_cases today req s)
    as [(r & Hf & _ & Hd & Hs)|[_ Hc]]; [|lia].
  rewrite Hd, Hs, list_all_account_ok. cbn [fst data rows].
  eexists _, _. split; [reflexivity|]. split; [reflexivity|]. split.
  - apply list_elem_of_fmap. exists (last_id s + 1, r).
    split; [reflexivity|]. apply elem_of_map_to_list, lookup_insert_eq.
  - rewrite length_fmap, length_map_to_list. by apply map_size_insert_None.
Qed.

(** ** Reading *)

(** X6: GET /accounts/{id} answers 200 with the entity of the row when the
    id is in the table and 404 "Not Found" when it is not; it never raises
    and never changes the table. *)
Theorem read_an_account_total (id : Z) (s : store) :
  (GET_account id s).2 = s
  ∧ match rows s !! id with
    | Some r =>
        status_code (GET_account id s).1 = 200
        ∧ data (GET_account id s).1 = BodyJson (entity_json id r)
    | None =>
        status_code (GET_account id s).1 = 404
        ∧ data (GET_account id s).1 = BodyText "Not Found"
    end.
Proof.
  destruct (rows s !! id) as [r|] eqn:E.
  - rewrite (read_an_account_present _ _ _ E). repeat split.
  - rewrite (read_an_account_absent _ _ E). repeat split.
Qed.

(** ** Updating *)

(** What [deserialize] returns has a name, an email and a date. *)
Lemma deserialize_shape today self j acc :
  Account.deserialize today self j = Ok acc →
  ∃ n e a p d,
    acc = Account.mk (Account.id self) (Some n) (Some e) a p (Some d).
Proof.
  unfold Account.deserialize. destruct j as [| | | | |m]; try done.
  destruct (Account.required_str m "name") as [n|]; [|done].
  destruct (Account.required_str m "email") as [e|]; [|done].
  destruct (Account.optional_str m "address") as [a|]; [|done].
  destruct (Account.optional_str m "phone_number") as [p|]; [|done].
  destruct (Account.date_or_today today m) as [d|]; [|done].
  intros [= <-]. eauto 6.
Qed.

(** On a table that has the id, what [update_an_account] does depends on
    the request alone: it refuses it and leaves the table, or it writes
    one and the same row. *)
Lemma update_an_account_shape today req id :
  (∃ resp,
     (status_code resp = 400 ∨ status_code resp = 415)
     ∧ ∀ s, is_Some (rows s !! id) → PUT_account today req id s = (resp, s))
  ∨ (∃ r,
       ∀ s, is_Some (rows s !! id) →
         PUT_account today req id s
         = ({| status_code := 200; data := BodyJson (entity_json id r);
               headers := ∅ |},
            {| rows := <[id := r]> (rows s); last_id := last_id s |})).
Proof.
  destruct (decide (header_content_type req = Some "application/json"))
    as [Hct|Hct].
  2: { left.
       exists (handle_exception
                 (HTTPException 415 "Content-Type must be application/json")).
       split; [right; reflexivity|]. intros s _.
       by apply update_an_account_415. }
  destruct (json_body req) as [j|] eqn:Hb.
  2: { left.
       exists (handle_exception
                 (HTTPException 400 "Failed to decode JSON object")).
       split; [left; reflexivity|]. intros s [r0 Hr].
       unfold PUT_account, dispatch, update_an_account. unfold_monad.
       rewrite (check_content_type_ok _ _ Hct), (find_present _ _ _ Hr), Hb.
       reflexivity. }
  destruct (Account.deserialize today Account.new j) as [acc|e] eqn:Hdes.
  - right. apply deserialize_shape in Hdes as Hsh.
    destruct Hsh as (n & e & a & p & d & ->).
    exists {| row_name := n; row_email := e; row_address := a;
              row_phone_number := p; row_date_joined := d |}.
    intros s [r0 Hr].
    unfold PUT_account, dispatch, update_an_account. unfold_monad.
    rewrite (check_content_type_ok _ _ Hct), (find_present _ _ _ Hr), Hb.
    unfold_monad. cbv beta iota. rewrite Hdes.
    unfold Account.update. simpl. rewrite Hr. reflexivity.
  - left. apply deserialize_raises in Hdes as Hmsg. destruct Hmsg as [msg ->].
    exists (handle_exception (DataValidationError msg)).
    split; [left; reflexivity|]. intros s [r0 Hr].
    unfold PUT_account, dispatch, update_an_account. unfold_monad.
    rewrite (check_content_type_ok _ _ Hct), (find_present _ _ _ Hr), Hb.
    unfold_monad. cbv beta iota. rewrite Hdes. reflexivity.
Qed.

Lemma update_an_account_cases today req id s :
  ((PUT_account today req id s).2 = s
   ∧ (status_code (PUT_account today req id s).1 = 400
      ∨ status_code (PUT_account today req id s).1 = 404
      ∨ status_code (PUT_account today req id s).1 = 415))
  ∨ (∃ r0 r,
       rows s !! id = Some r0
       ∧ PUT_account today req id s
         = ({| status_code := 200; data := BodyJson (entity_json id r);
               headers := ∅ |},
            {| rows := <[id := r]> (rows s); last_id := last_id s |})).
Proof.
  destruct (rows s !! id) as [r0|] eqn:Hr.
  - destruct (update_an_account_shape today req id)
      as [(resp & Hc & H)|(r & H)].
    + left. rewrite H by eauto. simpl. split; [done|]. tauto.
    + right. exists r0, r. split; [done|]. apply H. eauto.
  - left.
    destruct (decide (header_content_type req = Some "application/json"))
      as [Hct|Hct].
    + rewrite update_an_account_absent by done. simpl. auto.
    + rewrite update_an_account_415 by done. simpl. auto.
Qed.

(** X7: PUT on a stored id, with the JSON content type and a body without
    [name] or without [email] (or no JSON body at all), is answered with
    400 and the row is left as it was: the payload is checked before
    anything is written. *)
Theorem update_missing_field_400 (today : Date.date) (req : request)
    (id : Z) (s : store) :
  header_content_type req = Some "application/json" →
  is_Some (rows s !! id) →
  ¬ has_field (json_body req) "name" ∨ ¬ has_field (json_body req) "email" →
  status_code (PUT_account today req id s).1 = 400
  ∧ (PUT_account today req id s).2 = s.
Proof.
  intros Hct [r0 Hr] Hmiss.
  unfold PUT_account, dispatch, update_an_account. unfold_monad.
  rewrite (check_content_type_ok _ _ Hct), (find_present _ _ _ Hr).
  destruct (json_body req) as [j|] eqn:Hb; [|split; reflexivity].
  unfold_monad. cbv beta iota.
  destruct (deserialize_missing today Account.new j) as [msg ->];
    [|split; reflexivity].
  intros m ->.
  destruct (m !! "name") as [v|] eqn:Hn; [|by left].
  destruct (m !! "email") as [w|] eqn:He; [|by right].
  exfalso. destruct Hmiss as [H|H]; apply H; unfold has_field; eauto.
Qed.

(** X8: whatever the request, PUT /accounts/{id} adds no id and removes
    none, generates no id, and leaves every row other than the one of the
    path as it was. *)
Theorem update_an_account_frame (today : Date.date) (req : request)
    (id : Z) (s : store) :
  dom (rows (PUT_account today req id s).2) = dom (rows s)
  ∧ last_id (PUT_account today req id s).2 = last_id s
  ∧ ∀ k : Z, k ≠ id →
      rows (PUT_account today req id s).2 !! k = rows s !! k.
Proof.
  destruct (update_an_account_cases today req id s)
    as [[-> _]|(r0 & r & Hr & ->)]; [done|].
  cbn [snd rows last_id]. split; [|split; [done|]].
  - apply dom_insert_lookup_L. eauto.
  - intros k Hk. by apply lookup_insert_ne.
Qed.



(** ** Deleting *)

(** X11: DELETE /accounts/{id} answers 204 with an empty body or 404 "Not
    Found" and nothing else; on 404 the table is exactly as before, and on
    204 the table has one row less and the storage's id counter is left
    alone. *)
Theorem delete_an_account_total (id : Z) (s : store) :
  match rows s !! id with
  | Some _ =>
      status_code (DELETE_account id s).1 = 204
      ∧ data (DELETE_account id s).1 = BodyText ""
      ∧ S (size (rows (DELETE_account id s).2)) = size (rows s)
      ∧ last_id (DELETE_account id s).2 = last_id s
  | None =>
      status_code (DELETE_account id s).1 = 404
      ∧ data (DELETE_account id s).1 = BodyText "Not Found"
      ∧ (DELETE_account id s).2 = s
  end.
Proof.
  destruct (rows s !! id) as [r|] eqn:E.
  - rewrite (delete_an_account_present _ _ _ E). cbn [fst snd rows last_id].
    repeat split. rewrite map_size_delete, E.
    pose proof (map_size_non_empty_iff (rows s)) as Hne.
    assert (rows s ≠ ∅) by (intros H0; rewrite H0, lookup_empty in E; done).
    assert (size (rows s) ≠ 0%nat) by tauto. lia.
  - rewrite (delete_an_account_absent _ _ E). repeat split.
Qed.

(** X12: what was deleted is gone for the other handlers: after a DELETE
    answered with 204, GET on the id answers 404, PUT on the id answers
    404 (with the JSON content type), and GET /accounts lists one account
    less, none of them with that id. *)
Theorem delete_then_gone (today : Date.date) (req : request) (id : Z)
    (s : store) :
  status_code (DELETE_account id s).1 = 204 →
  header_content_type req = Some "application/json" →
  status_code (GET_account id (DELETE_account id s).2).1 = 404
  ∧ status_code (PUT_account today req id (DELETE_account id s).2).1 = 404
  ∧ ∃ l : list json,
      data (GET_accounts (DELETE_account id s).2).1 = BodyJson (JArr l)
      ∧ S (length l) = size (rows s)
      ∧ ∀ r : row, entity_json id r ∉ l.
Proof.
  intros H204 Hct.
  destruct (rows s !! id) as [r0|] eqn:E.
  2: { rewrite (delete_an_account_absent _ _ E) in H204. discriminate. }
  rewrite (delete_an_account_present _ _ _ E). cbn [snd].
  rewrite read_an_account_absent by apply lookup_delete_eq.
  rewrite update_an_account_absent by (done || apply lookup_delete_eq).
  rewrite list_all_account_ok. cbn [fst status_code data rows].
  split; [done|]. split; [done|]. eexists. split; [reflexivity|]. split.
  - rewrite length_fmap, length_map_to_list, map_size_delete, E.
    assert (rows s ≠ ∅) by (intros H0; rewrite H0, lookup_empty in E; done).
    pose proof (map_size_non_empty_iff (rows s)).
    assert (size (rows s) ≠ 0%nat) by tauto. lia.
  - intros r Hin. apply list_elem_of_fmap in Hin as ([k r'] & Heq & Hin).
    apply elem_of_map_to_list in Hin. unfold entity_json in Heq.
    cbn [fst snd] in Heq.
    apply (f_equal (λ j, match j with JObj m => m !! "id" | _ => None end))
      in Heq.
    cbv beta iota in Heq. rewrite !lookup_insert_eq in Heq.
    injection Heq as <-.
    by rewrite lookup_delete_eq in Hin.
Qed.


(** ** Routing *)

Lemma route_health (m : method) :
  route m ["health"]
  = if bool_decide (m = GET) then Matched ep_health []
    else RouteMethodNotAllowed.
Proof. destruct m; reflexivity. Qed.

Lemma route_index (m : method) :
  route m []
  = if bool_decide (m = GET) then Matched ep_index []
    else RouteMethodNotAllowed.
Proof. destruct m; reflexivity. Qed.

Lemma route_accounts (m : method) :
  route m ["accounts"]
  = match m with
    | POST => Matched ep_create_accounts []
    | GET => Matched ep_list_all_account []
    | PUT | DELETE => RouteMethodNotAllowed
    end.
Proof. destruct m; reflexivity. Qed.

Lemma route_account (m : method) (seg : string) :
  route m ["accounts"; seg]
  = match int_converter seg with
    | Some i =>
        match m with
        | GET => Matched ep_read_an_account [i]
        | PUT => Matched ep_update_an_account [i]
        | DELETE => Matched ep_delete_an_account [i]
        | POST => RouteMethodNotAllowed
        end
    | None => RouteNotFound
    end.
Proof.
  unfold route, url_map.
  cbn [route_in pattern methods target match_pattern String.eqb Ascii.eqb
       Bool.eqb].
  destruct (int_converter seg) as [i|]; [|reflexivity].
  cbn [fmap option_fmap option_map]. destruct m; reflexivity.
Qed.

(** A path the decorators do not declare. *)
Lemma route_other (m : method) (path : list string) :
  path ≠ ["health"] → path ≠ [] → path ≠ ["accounts"] →
  (∀ seg, path ≠ ["accounts"; seg]) →
  route m path = RouteNotFound.
Proof.
  intros H1 H2 H3 H4. unfold route, url_map.
  destruct path as [|s1 [|s2 [|s3 path]]]; [done| | |].
  - cbn [route_in pattern methods target match_pattern].
    destruct (String.eqb "health" s1) eqn:E1;
      [apply String.eqb_eq in E1; by subst|].
    destruct (String.eqb "accounts" s1) eqn:E2;
      [apply String.eqb_eq in E2; by subst|].
    reflexivity.
  - cbn [route_in pattern methods target match_pattern].
    destruct (String.eqb "health" s1) eqn:E1;
      destruct (String.eqb "accounts" s1) eqn:E2; try reflexivity;
      apply String.eqb_eq in E2; subst; by destruct (H4 s2).
  - cbn [route_in pattern methods target match_pattern].
    destruct (String.eqb "health" s1), (String.eqb "accounts" s1);
      try reflexivity;
      destruct (int_converter s2); reflexivity.
Qed.

(** X14: a verb that no decorator declares for a declared path is answered
    with 405 and the table is not touched: anything but GET on [/health]
    and on [/], PUT and DELETE on [/accounts] (as in
    [test_method_not_allowed]), and POST on [/accounts/<int:id>]. *)
Theorem undeclared_method_405 (today : Date.date) (req : request)
    (s : store) :
  (∀ m, m ≠ GET →
     serve today m ["health"] req s
     = (error_response 405 "Method Not Allowed", s)
     ∧ serve today m [] req s = (error_response 405 "Method Not Allowed", s))
  ∧ (∀ m, m = PUT ∨ m = DELETE →
       serve today m ["accounts"] req s
       = (error_response 405 "Method Not Allowed", s))
  ∧ (∀ seg i, int_converter seg = Some i →
       serve today POST ["accounts"; seg] req s
       = (error_response 405 "Method Not Allowed", s)).
Proof.
  split; [|split].
  - intros m Hm. unfold serve. rewrite route_health, route_index.
    rewrite bool_decide_eq_false_2 by done. split; reflexivity.
  - intros m [->| ->]; unfold serve; rewrite route_accounts; reflexivity.
  - intros seg i Hi. unfold serve. rewrite route_account, Hi. reflexivity.
Qed.



(** X16: [/health] and [/] answer GET with 200 and their fixed JSON
    object, whatever the request carries and whatever the table holds, and
    they leave the table alone. *)
Theorem health_and_index (today : Date.date) (req : request) (s : store) :
  serve today GET ["health"] req s
  = ({| status_code := 200; data := BodyJson (JObj {["status" := JStr "OK"]});
        headers := ∅ |}, s)
  ∧ serve today GET [] req s
    = ({| status_code := 200;
          data := BodyJson
                    (JObj (<["name" := JStr "Account REST API Service"]>
                          (<["version" := JStr "1.0"]> ∅)));
          headers := ∅ |}, s).
Proof. split; reflexivity. Qed.

(** ** The table stays well formed *)

Lemma serve_cases today m path req s :
  (serve today m path req s).2 = s
  ∨ serve today m path req s = POST_accounts today req s
  ∨ (∃ i, serve today m path req s = PUT_account today req i s)
  ∨ (∃ i, serve today m path req s = DELETE_account i s).
Proof.
  destruct (decide (path = ["health"])) as [->|H1].
  { unfold serve. rewrite route_health. destruct m; left; reflexivity. }
  destruct (decide (path = [])) as [->|H2].
  { unfold serve. rewrite route_index. destruct m; left; reflexivity. }
  destruct (decide (path = ["accounts"])) as [->|H3].
  { unfold serve. rewrite route_accounts. destruct m.
    - left. fold (GET_accounts s). by rewrite list_all_account_ok.
    - right. left. reflexivity.
    - left. reflexivity.
    - left. reflexivity. }
  assert (Hdec : (∃ seg, path = ["accounts"; seg])
                 ∨ ∀ seg, path ≠ ["accounts"; seg]).
  { destruct path as [|s1 [|s2 [|s3 p]]];
      try (right; intros seg; discriminate).
    destruct (decide (s1 = "accounts")) as [->|Hn]; [left; eauto|].
    right. intros seg [= ? ?]. done. }
  destruct Hdec as [[seg ->]|H4].
  { unfold serve. rewrite route_account.
    destruct (int_converter seg) as [i|]; [|left; reflexivity].
    destruct m.
    - left.
      change (dispatch (view_of today ep_read_an_account [i] req) s)
        with (GET_account i s).
      destruct (rows s !! i) as [r|] eqn:E.
      + by rewrite (read_an_account_present _ _ _ E).
      + by rewrite (read_an_account_absent _ _ E).
    - left. reflexivity.
    - right. right. left. exists i. reflexivity.
    - right. right. right. exists i. reflexivity. }
  left. unfold serve. rewrite route_other by done. reflexivity.
Qed.

Lemma serve_wf today m path req s :
  store_wf s →
  store_wf (serve today m path req s).2
  ∧ last_id s ≤ last_id (serve today m path req s).2.
Proof.
  intros Hwf.
  destruct (serve_cases today m path req s)
    as [->|[->|[[i ->]|[i ->]]]].
  - split; [done|lia].
  - destruct (create_accounts_cases today req s)
      as [(r & _ & _ & _ & ->)|[-> _]]; [|split; [done|lia]].
    unfold store_wf. cbn [snd rows last_id]. split; [|lia].
    intros k [x Hk].
    destruct (decide (k = last_id s + 1)) as [->|Hne]; [lia|].
    rewrite lookup_insert_ne in Hk by done.
    assert (k ≤ last_id s) by (apply Hwf; eauto). lia.
  - destruct (update_an_account_cases today req i s)
      as [[-> _]|(r0 & r & Hr & ->)]; [split; [done|lia]|].
    unfold store_wf. cbn [snd rows last_id]. split; [|lia].
    intros k [x Hk]. apply Hwf.
    destruct (decide (k = i)) as [->|Hne]; [eauto|].
    rewrite lookup_insert_ne in Hk by done. eauto.
  - destruct (rows s !! i) as [r|] eqn:E.
    + rewrite (delete_an_account_present _ _ _ E). unfold store_wf.
      cbn [snd rows last_id]. split; [|lia]. intros k [x Hk]. apply Hwf.
      apply lookup_delete_Some in Hk as [_ Hk]. eauto.
    + rewrite (delete_an_account_absent _ _ E). cbn [snd].
      split; [done|lia].
Qed.

Lemma serve_all_wf today (cs : list call) (s : store) :
  store_wf s →
  store_wf (serve_all today cs s).2
  ∧ last_id s ≤ last_id (serve_all today cs s).2.
Proof.
  revert s. induction cs as [|c cs IH]; intros s Hwf.
  - split; [done|]. simpl. lia.
  - cbn [serve_all].
    pose proof (serve_wf today (call_method c) (call_path c)
                  (call_request c) s Hwf) as [Hwf1 Hle1].
    destruct (serve today (call_method c) (call_path c) (call_request c) s)
      as [r s1].
    cbn [snd] in Hwf1, Hle1. specialize (IH s1 Hwf1) as [Hwf2 Hle2].
    destruct (serve_all today cs s1) as [rs s2]. cbn [snd] in *.
    split; [done|lia].
Qed.


Lemma empty_store_wf : store_wf empty_store.
Proof.
  intros k [x Hk]. unfold empty_store in Hk. cbn [rows] in Hk.
  by rewrite lookup_empty in Hk.
Qed.

(** X18: after any sequence of requests on the empty table, a create
    request with the JSON content type and a valid payload is answered
    with 201: the storage never runs into an id that is taken. *)
Theorem create_after_any_history (today : Date.date) (cs : list call)
    (req : request) (j : json) :
  header_content_type req = Some "application/json" →
  json_body req = Some j →
  valid_payload j →
  status_code
    (serve today POST ["accounts"] req
       (serve_all today cs empty_store).2).1 = 201.
Proof.
  intros Hct Hb (m & n & e & -> & Hn & He & Ha & Hp & Hd).
  destruct (serve_all_wf today cs empty_store empty_store_wf)
    as [Hwf _].
  change (serve today POST ["accounts"] req ?s) with (POST_accounts today req s).
  destruct (create_accounts_valid today req _ m n e Hct Hb Hn He Ha Hp Hd
              (wf_fresh _ Hwf)) as (r & _ & _ & ->).
  reflexivity.
Qed.

(** ** The helper of the tests *)

Lemma ids_after_S (a : Z) (n : nat) :
  ids_after a (S n) = (a + 1) :: ids_after (a + 1) n.
Proof.
  unfold ids_after. cbn [seq fmap list_fmap]. f_equal; [lia|].
  rewrite <- fmap_S_seq, <- list_fmap_compose.
  apply list_fmap_ext. intros _ k _. simpl. lia.
Qed.

Lemma insert_next_wf (s : store) (r : row) :
  store_wf s →
  store_wf {| rows := <[last_id s + 1 := r]> (rows s);
              last_id := last_id s + 1 |}.
Proof.
  intros Hwf k [x Hk]. cbn [rows last_id] in *.
  destruct (decide (k = last_id s + 1)) as [->|Hne]; [lia|].
  rewrite lookup_insert_ne in Hk by done.
  assert (k ≤ last_id s) by (apply Hwf; eauto). lia.
Qed.

Lemma _create_accounts_ok today (factory : list json) :
  ∀ s, store_wf s → Forall valid_payload factory →
  ∃ s',
    _create_accounts today factory s
    = (Some (zip (ids_after (last_id s) (length factory)) factory), s')
    ∧ store_wf s'
    ∧ size (rows s') = (size (rows s) + length factory)%nat.
Proof.
  induction factory as [|a rest IH]; intros s Hwf Hall.
  - exists s. cbn. split; [reflexivity|]. split; [done|lia].
  - apply Forall_cons in Hall as [Ha Hrest].
    destruct Ha as (m & n & e & -> & Hn & He & Hadr & Hp & Hd).
    cbn [_create_accounts].
    change (serve today POST ["accounts"] ?q s)
      with (POST_accounts today q s).
    destruct (create_accounts_valid today (json_request (JObj m)) s m n e
                eq_refl eq_refl Hn He Hadr Hp Hd (wf_fresh s Hwf))
      as (r & _ & _ & ->).
    cbn [status_code]. change (201 =? status.HTTP_201_CREATED) with true.
    cbv iota. unfold response_id. cbn [data entity_json].
    rewrite lookup_insert_eq.
    destruct (IH _ (insert_next_wf s r Hwf) Hrest) as (s' & -> & Hwf' & Hsz).
    exists s'. cbn [last_id rows] in *. split; [|split; [done|]].
    + cbn [length]. rewrite ids_after_S. reflexivity.
    + rewrite Hsz, map_size_insert_None by apply (wf_fresh s Hwf).
      cbn [length]. lia.
Qed.

(** X19: [_create_accounts] of the tests on a table whose ids were all
    generated by the storage: when every account of the factory is a valid
    payload, no assertion fails, the accounts come back in order with the
    consecutive ids that follow the last generated one, and GET /accounts
    then lists that many accounts more. *)
Theorem create_accounts_in_bulk (today : Date.date) (factory : list json)
    (s : store) :
  store_wf s →
  Forall valid_payload factory →
  (_create_accounts today factory s).1
  = Some (zip (ids_after (last_id s) (length factory)) factory)
  ∧ listed_count (GET_accounts (_create_accounts today factory s).2).1
    = Some (size (rows s) + length factory)%nat.
Proof.
  intros Hwf Hall.
  destruct (_create_accounts_ok today factory s Hwf Hall)
    as (s' & -> & _ & Hsz).
  cbn [fst snd]. split; [reflexivity|].
  by rewrite listed_count_size, Hsz.
Qed.

(** ** The loop of the listing *)

(** X20: the loop of [list_all_account] appends one object per account to
    what it was given, in the order of the accounts, and leaves the table
    alone; it breaks with an [AttributeError] exactly when an account has
    no [date_joined] to call [isoformat] on. *)
Theorem list_loop_appends (l : list Account.t) (result : list json)
    (s : store) :
  (Forall (λ a, is_Some (Account.date_joined a)) l →
     ∃ objs : list json,
       list_loop l result s = (Ok (result ++ objs)%list, s)
       ∧ length objs = length l
       ∧ ∀ (k : nat) (a : Account.t), l !! k = Some a →
           json_field "id" <$> objs !! k
           = Some (Some (Account.json_of_opt_int (Account.id a))))
  ∧ (Exists (λ a, Account.date_joined a = None) l →
       ∃ msg, list_loop l result s = (Raise (AttributeError msg), s)).
Proof.
  split.
  - revert result. induction l as [|a l IH]; intros result Hall.
    + exists []. rewrite app_nil_r. split; [reflexivity|].
      split; [reflexivity|]. intros k a. by rewrite lookup_nil.
    + apply Forall_cons in Hall as [[d Hd] Hall]. cbn [list_loop].
      rewrite Hd. edestruct IH as (objs & -> & Hlen & Hid); [exact Hall|].
      eexists (_ :: objs). rewrite <- app_assoc. split; [reflexivity|].
      split; [cbn [length]; by rewrite Hlen|].
      intros [|k] a'; cbn [lookup list_lookup].
      * intros [= <-]. cbn [fmap option_fmap option_map json_field].
        by rewrite lookup_insert_eq.
      * apply Hid.
  - revert result. induction l as [|a l IH]; intros result Hex.
    + by apply Exists_nil in Hex.
    + cbn [list_loop]. destruct (Account.date_joined a) as [d|] eqn:Hd.
      * apply Exists_cons in Hex as [Hex|Hex]; [congruence|]. by apply IH.
      * eexists. reflexivity.
Qed.

(** X21: GET /accounts lists every id of the table exactly once: the ids
    of the listed objects are pairwise distinct, and an id is listed if and
    only if the table has a row for it. *)
Theorem list_ids_distinct (s : store) :
  ∃ l : list json,
    data (GET_accounts s).1 = BodyJson (JArr l)
    ∧ NoDup (json_field "id" <$> l)
    ∧ ∀ i : Z,
        Some (JInt i) ∈ (json_field "id" <$> l) ↔ is_Some (rows s !! i).
Proof.
  rewrite list_all_account_ok. cbn [fst data]. eexists.
  split; [reflexivity|].
  assert (E : json_field "id"
                <$> ((λ kr, entity_json kr.1 kr.2) <$> map_to_list (rows s))
              = (λ k, Some (JInt k)) <$> (map_to_list (rows s)).*1).
  { rewrite <- !list_fmap_compose. apply list_fmap_ext.
    intros _ [k r] _. cbn. by rewrite lookup_insert_eq. }
  rewrite E. split.
  - apply NoDup_fmap_2; [intros a b [= ->]; done|].
    apply NoDup_fst_map_to_list.
  - intros i. rewrite list_elem_of_fmap. split.
    + intros (k & [= <-] & Hk). apply list_elem_of_fmap in Hk as ([k' r] & -> & Hk).
      apply elem_of_map_to_list in Hk. eauto.
    + intros [r Hr]. exists i. split; [done|].
      apply list_elem_of_fmap. exists (i, r). split; [done|].
      by apply elem_of_map_to_list.
Qed.

(** ** From an id to its path and back *)

Lemma string_app_assoc (a b c : string) : (a +:+ b) +:+ c = a +:+ (b +:+ c).
Proof.
  induction a as [|x a IH]; [reflexivity|].
  change (String x ((a +:+ b) +:+ c) = String x (a +:+ (b +:+ c))).
  by rewrite IH.
Qed.

Lemma parse_digits_app (a b : string) (acc : Z) :
  parse_digits (a +:+ b) acc = parse_digits a acc ≫= parse_digits b.
Proof.
  revert acc. induction a as [|c a IH]; intros acc; simpl; [reflexivity|].
  destruct (Date.is_digit c); [apply IH|reflexivity].
Qed.

Lemma pretty_N_char_digit (d : N) :
  (d < 10)%N →
  Date.is_digit (pretty_N_char d) = true
  ∧ Date.digit_val (pretty_N_char d) = Z.of_N d.
Proof.
  intros Hd.
  assert (d = 0 ∨ d = 1 ∨ d = 2 ∨ d = 3 ∨ d = 4 ∨ d = 5 ∨ d = 6 ∨ d = 7
          ∨ d = 8 ∨ d = 9)%N as H by lia.
  repeat (destruct H as [->|H]; [split; reflexivity|]). subst d.
  split; reflexivity.
Qed.

Lemma pretty_N_go_app (x : N) (sfx : string) :
  pretty_N_go x sfx = pretty_N_go x "" +:+ sfx.
Proof.
  revert sfx. induction (N.lt_wf_0 x) as [x _ IH]; intros sfx.
  destruct (decide (x = 0)%N) as [->|Hx]; [by rewrite !pretty_N_go_0|].
  assert (Hlt : (x `div` 10 < x)%N) by (apply N.div_lt; lia).
  rewrite !(pretty_N_go_step x) by lia.
  rewrite (IH _ Hlt (String _ sfx)), (IH _ Hlt (String _ "")).
  rewrite string_app_assoc. reflexivity.
Qed.

Lemma parse_pretty_N_go (x : N) :
  parse_digits (pretty_N_go x "") 0 = Some (Z.of_N x).
Proof.
  induction (N.lt_wf_0 x) as [x _ IH].
  destruct (decide (x = 0)%N) as [->|Hx]; [reflexivity|].
  rewrite pretty_N_go_step by lia. rewrite pretty_N_go_app, parse_digits_app.
  rewrite IH by (apply N.div_lt; lia). cbn [mbind option_bind parse_digits].
  destruct (pretty_N_char_digit (x `mod` 10)%N) as [-> ->].
  { apply N.mod_lt. lia. }
  f_equal. rewrite <- N2Z.inj_mul with (n := 10%N), <- N2Z.inj_add.
  f_equal. rewrite (N.div_mod x 10) at 3 by lia. lia.
Qed.

Lemma int_converter_pretty (i : Z) :
  (0 ≤ i → int_converter (pretty i) = Some i)
  ∧ (i < 0 → int_converter (pretty i) = None).
Proof.
  split; intros Hi.
  - destruct i as [|p|p]; [reflexivity| |lia].
    unfold pretty, pretty_Z, pretty, pretty_positive, pretty, pretty_N.
    destruct (decide (N.pos p = 0%N)) as [|_]; [done|].
    pose proof (parse_pretty_N_go (N.pos p)) as H.
    unfold int_converter.
    destruct (pretty_N_go (N.pos p) "") as [|c rest]; [done|]. exact H.
  - destruct i as [|p|p]; [lia|lia|]. reflexivity.
Qed.

(** X22: from an id to its path and back: the path the tests build from
    an id that is not negative reaches the read, update and delete view
    functions with exactly that id; the path built from a negative id is
    answered with 404 by the routing, whatever the verb. *)
Theorem account_path_round_trip (today : Date.date) (i : Z)
    (req : request) (s : store) :
  (0 ≤ i →
     serve today GET (account_path i) req s = GET_account i s
     ∧ serve today PUT (account_path i) req s = PUT_account today req i s
     ∧ serve today DELETE (account_path i) req s = DELETE_account i s)
  ∧ (i < 0 →
       ∀ m, serve today m (account_path i) req s
            = (error_response 404 "Not Found", s)).
Proof.
  destruct (int_converter_pretty i) as [Hpos Hneg].
  unfold account_path, serve. split; intros Hi.
  - rewrite !route_account, (Hpos Hi). repeat split.
  - intros m. rewrite route_account, (Hneg Hi). reflexivity.
Qed.

(** ** The further properties on the sample data *)

Lemma one_store_wf : store_wf one_store.
Proof.
  intros k [x Hk]. unfold one_store in *. cbn [rows last_id] in *.
  apply lookup_singleton_Some in Hk as [<- _]. lia.
Qed.


Lemma carol_date_ok : valid_date_field carol_fields.
Proof. unfold valid_date_field. vm_compute. eexists. reflexivity. Qed.

Lemma carol_valid : valid_payload (JObj carol_fields).
Proof.
  exists carol_fields, "Carol", "carol@example.com".
  split; [reflexivity|]. split; [reflexivity|]. split; [reflexivity|].
  split; [by vm_compute|]. split; [by vm_compute|]. apply carol_date_ok.
Qed.

Lemma alice_valid : valid_payload alice_payload.
Proof.
  eexists _, "Alice", "a@example.com".
  split; [reflexivity|]. split; [reflexivity|]. split; [reflexivity|].
  split; [by vm_compute|]. split; [by vm_compute|].
  unfold valid_date_field. vm_compute. eexists. reflexivity.
Qed.

Lemma create_accounts_adds_one_row_witness :
  store_wf one_store
  ∧ ∃ r : row,
      row_name r = "Carol" ∧ row_email r = "carol@example.com"
      ∧ status_code
          (POST_accounts today0 (json_request (JObj carol_fields))
             one_store).1 = 201
      ∧ data
          (POST_accounts today0 (json_request (JObj carol_fields))
             one_store).1
        = BodyJson (entity_json (last_id one_store + 1) r)
      ∧ headers
          (POST_accounts today0 (json_request (JObj carol_fields))
             one_store).1 !! "Location" = Some "/"
      ∧ rows one_store !! (last_id one_store + 1) = None
      ∧ rows
          (POST_accounts today0 (json_request (JObj carol_fields))
             one_store).2
        = <[last_id one_store + 1 := r]> (rows one_store)
      ∧ size
          (rows
             (POST_accounts today0 (json_request (JObj carol_fields))
                one_store).2)
        = S (size (rows one_store))
      ∧ store_wf
          (POST_accounts today0 (json_request (JObj carol_fields))
             one_store).2.
Proof.
  split; [exact one_store_wf|].
  apply (create_accounts_adds_one_row today0
           (json_request (JObj carol_fields)) one_store carol_fields
           "Carol" "carol@example.com");
    [exact one_store_wf | reflexivity | reflexivity | reflexivity
    | reflexivity | by vm_compute | by vm_compute | exact carol_date_ok].
Defined.

Lemma create_then_read_witness :
  status_code
    (POST_accounts today0 (json_request alice_payload) empty_store).1 = 201
  ∧ ∃ i : Z,
      response_id
        (POST_accounts today0 (json_request alice_payload) empty_store).1
      = Some i
      ∧ status_code
          (GET_account i
             (POST_accounts today0 (json_request alice_payload)
                empty_store).2).1 = 200
      ∧ data
          (GET_account i
             (POST_accounts today0 (json_request alice_payload)
                empty_store).2).1
        = data
            (POST_accounts today0 (json_request alice_payload)
               empty_store).1
      ∧ (GET_account i
           (POST_accounts today0 (json_request alice_payload)
              empty_store).2).2
        = (POST_accounts today0 (json_request alice_payload) empty_store).2.
Proof.
  split; [vm_compute; reflexivity|].
  apply (create_then_read today0 (json_request alice_payload) empty_store).
  vm_compute; reflexivity.
Defined.

Lemma create_then_list_witness :
  status_code
    (POST_accounts today0 (json_request alice_payload) one_store).1 = 201
  ∧ ∃ (o : json) (l : list json),
      data (POST_accounts today0 (json_request alice_payload) one_store).1
      = BodyJson o
      ∧ data
          (GET_accounts
             (POST_accounts today0 (json_request alice_payload)
                one_store).2).1
        = BodyJson (JArr l)
      ∧ o ∈ l
      ∧ length l = S (size (rows one_store)).
Proof.
  split; [vm_compute; reflexivity|].
  apply (create_then_list today0 (json_request alice_payload) one_store).
  vm_compute; reflexivity.
Defined.

Lemma update_missing_field_400_witness :
  is_Some (rows one_store !! 1)
  ∧ ¬ has_field (json_body (json_request name_only_payload)) "email"
  ∧ status_code
      (PUT_account today0 (json_request name_only_payload) 1 one_store).1
    = 400
  ∧ (PUT_account today0 (json_request name_only_payload) 1 one_store).2
    = one_store.
Proof.
  assert (Hno : ¬ has_field (json_body (json_request name_only_payload))
                  "email").
  { intros (m & v & Hm & Hv). injection Hm as <-. discriminate Hv. }
  split; [exists alice_row; reflexivity|]. split; [exact Hno|].
  apply (update_missing_field_400 today0 (json_request name_only_payload) 1
           one_store);
    [reflexivity | exists alice_row; reflexivity | right; exact Hno].
Defined.


Lemma delete_then_gone_witness :
  status_code (DELETE_account 1 two_store).1 = 204
  ∧ status_code (GET_account 1 (DELETE_account 1 two_store).2).1 = 404
  ∧ status_code
      (PUT_account today0 (json_request alice_payload) 1
         (DELETE_account 1 two_store).2).1 = 404
  ∧ ∃ l : list json,
      data (GET_accounts (DELETE_account 1 two_store).2).1
      = BodyJson (JArr l)
      ∧ S (length l) = size (rows two_store)
      ∧ ∀ r : row, entity_json 1 r ∉ l.
Proof.
  split; [vm_compute; reflexivity|].
  apply (delete_then_gone today0 (json_request alice_payload) 1 two_store);
    [vm_compute; reflexivity | reflexivity].
Defined.



Lemma create_after_any_history_witness :
  valid_payload alice_payload
  ∧ status_code
      (serve today0 POST ["accounts"] (json_request alice_payload)
         (serve_all today0 some_calls empty_store).2).1 = 201.
Proof.
  split; [exact alice_valid|].
  apply (create_after_any_history today0 some_calls
           (json_request alice_payload) alice_payload);
    [reflexivity | reflexivity | exact alice_valid].
Defined.

Lemma create_accounts_in_bulk_witness :
  store_wf one_store
  ∧ Forall valid_payload [alice_payload; JObj carol_fields]
  ∧ (_create_accounts today0 [alice_payload; JObj carol_fields] one_store).1
    = Some (zip (ids_after (last_id one_store) 2)
                [alice_payload; JObj carol_fields])
  ∧ listed_count
      (GET_accounts
         (_create_accounts today0 [alice_payload; JObj carol_fields]
            one_store).2).1
    = Some (size (rows one_store) + 2)%nat.
Proof.
  assert (Hall : Forall valid_payload [alice_payload; JObj carol_fields]).
  { repeat constructor; [exact alice_valid | exact carol_valid]. }
  split; [exact one_store_wf|]. split; [exact Hall|].
  apply (create_accounts_in_bulk today0 [alice_payload; JObj carol_fields]
           one_store); [exact one_store_wf | exact Hall].
Defined.

Example ex_history :
  status_code <$> (serve_all today0 some_calls empty_store).1
  = [201; 201; 200; 204; 405; 200].
Proof. vm_compute. reflexivity. Qed.

Example ex_bulk :
  (_create_accounts today0 [alice_payload; JObj carol_fields] one_store).1
  = Some [(2, alice_payload); (3, JObj carol_fields)].
Proof. vm_compute. reflexivity. Qed.
